(** * task-glitch: the task state manager of [src/hooks/useTasks.ts]

    A shallow embedding of the [useTasks] hook: the record normalizer, the
    shared load handle, the create/update operations and the token-gated
    delete/undo buffer, followed by the properties of the specification that
    were checked against it.

    Conventions.
    - JavaScript values that reach the hook untyped (the parsed body of
      [/tasks.json]) are kept as runtime values ([JsVal]); TypeScript types
      are erased at run time, so [normalizeTasks] passes them through.
    - A JavaScript [number] is an IEEE-754 binary64 value, modelled by the
      standard library's [spec_float] (zero, infinity, NaN, finite).
    - Time values are integers of milliseconds; an invalid [Date] is [None].
    - Exceptions are an explicit result type.
    - The sources of nondeterminism ([crypto.randomUUID], [Date.now],
      [new Date()]) are arguments of the operations that consult them.
    - State setters of one operation are applied together: operations are
      atomic with respect to each other (single event loop).
    - [undoDelete] and [clearLastDeleted] are callbacks memoized on
      [lastDeleted] and [lastDeletedToken]: they test the values of the
      render that built them. [undoDeleteFrom] and [clearLastDeletedFrom]
      take that render as an argument; [undoDelete], [clearLastDeleted],
      [step] and [run] are calls made from the render of the state they act
      on, each in an event of its own; [play] makes the renders explicit. *)

From Stdlib Require Import ZArith List String Bool Lia Permutation.
From Stdlib Require Import DecimalString.
From Stdlib Require Import Floats.SpecFloat.
Import ListNotations.

Local Open Scope string_scope.
Local Open Scope Z_scope.
Local Open Scope list_scope.

(* ================================================================= *)
(** ** JavaScript runtime values *)

Module JS.

(** [number]: IEEE-754 double precision. *)
Definition number : Type := spec_float.

Definition NaN : number := S754_nan.
Definition zero : number := S754_zero false.
(** 1 as a canonical binary64: mantissa 2^52, exponent -52. *)
Definition one : number := S754_finite false 4503599627370496 (-52).

(** [x > y], [x <= y] of JavaScript: false as soon as an operand is NaN. *)
Definition gt (x y : number) : bool := SFltb y x.
Definition le (x y : number) : bool := SFleb x y.

(** [Number.isFinite]. *)
Definition isFinite (x : number) : bool :=
  match x with
  | S754_zero _ | S754_finite _ _ _ => true
  | S754_infinity _ | S754_nan => false
  end.

Definition isNaN (x : number) : bool :=
  match x with S754_nan => true | _ => false end.

#[warnings="-register-all"]
Inductive JsVal : Type :=
| JUndef
| JNull
| JBool (b : bool)
| JNum (n : number)
| JStr (s : string)
| JArr (elems : list JsVal)
| JObj (props : list (string * JsVal)).

(** ToBoolean. *)
Definition truthy (v : JsVal) : bool :=
  match v with
  | JUndef | JNull => false
  | JBool b => b
  | JNum n => match n with S754_zero _ | S754_nan => false | _ => true end
  | JStr s => negb (String.eqb s "")
  | JArr _ | JObj _ => true
  end.

(** [v === s] and [v !== s] for a string [s]. *)
Definition strictEqStr (v : JsVal) (s : string) : bool :=
  match v with JStr s' => String.eqb s' s | _ => false end.

(** [a || b] *)
Definition or_else (a b : JsVal) : JsVal := if truthy a then a else b.

(** [a ?? b] *)
Definition nullish (v : JsVal) : bool :=
  match v with JUndef | JNull => true | _ => false end.
Definition coalesce (a b : JsVal) : JsVal := if nullish a then b else a.

(** Exceptions and results. *)
Inductive Exn : Type :=
| TypeError (msg : string)
| RangeError (msg : string)
| Error (msg : string).

Inductive Result (A : Type) : Type :=
| Ok (a : A)
| Throw (e : Exn).
Arguments Ok {A} a.
Arguments Throw {A} e.

Definition bind {A B} (r : Result A) (k : A -> Result B) : Result B :=
  match r with Ok a => k a | Throw e => Throw e end.

Definition isOk {A} (r : Result A) : bool :=
  match r with Ok _ => true | Throw _ => false end.

Fixpoint assoc (k : string) (props : list (string * JsVal)) : JsVal :=
  match props with
  | [] => JUndef
  | (k', v) :: rest => if String.eqb k' k then v else assoc k rest
  end.

(** Property read [t.k] for the data property names used by the hook.
    Reading a property of [undefined] or [null] throws; primitives and
    arrays have no such property; a plain object yields its own value. *)
Definition getProp (t : JsVal) (k : string) : Result JsVal :=
  match t with
  | JUndef | JNull =>
      Throw (TypeError "Cannot read properties of undefined or null")
  | JObj props => Ok (assoc k props)
  | JBool _ | JNum _ | JStr _ | JArr _ => Ok JUndef
  end.

End JS.

Import JS.

Declare Scope js_scope.
Delimit Scope js_scope with js.
Notation "x <- c ;; k" := (JS.bind c (fun x => k))
  (at level 61, c at next level, right associativity) : js_scope.
Local Open Scope js_scope.

(* ================================================================= *)
(** ** Tasks and the hook state *)

(** Modelled from the spec: the [Task] interface is imported from ['@/types'],
    which is not among the sources; the fields are those of section 3 of the
    specification and of the object literal built by [normalizeTasks].
    Fields that [normalizeTasks] copies from the untyped input hold runtime
    values; [revenue], [timeTaken] and [createdAt] are always produced by a
    conversion and carry their type. *)
Record Task : Type := mkTask {
  id : JsVal;
  title : JsVal;
  revenue : number;
  timeTaken : number;
  priority : JsVal;
  status : JsVal;
  notes : JsVal;
  createdAt : string;
  completedAt : JsVal
}.

(** The argument of [addTask]: [Omit<Task, 'id' | 'createdAt'> & { id?: string }].
    An absent [id] is [JUndef]. *)
Record NewTask : Type := mkNewTask {
  nt_id : JsVal;
  nt_title : JsVal;
  nt_revenue : number;
  nt_timeTaken : number;
  nt_priority : JsVal;
  nt_status : JsVal;
  nt_notes : JsVal
}.

(** [Partial<Task>]: every key is either absent ([None]) or carries a value
    (for an optional field possibly [JUndef], written out by the caller).
    A patch that writes [undefined] under the key of [revenue], [timeTaken]
    or [createdAt] is not represented: these keys carry a number or a
    string. *)
Record Patch : Type := mkPatch {
  p_id : option JsVal;
  p_title : option JsVal;
  p_revenue : option number;
  p_timeTaken : option number;
  p_priority : option JsVal;
  p_status : option JsVal;
  p_notes : option JsVal;
  p_createdAt : option string;
  p_completedAt : option JsVal
}.

(** [{ status: s }] *)
Definition statusPatch (s : string) : Patch :=
  mkPatch None None None None None (Some (JStr s)) None None None.

(** The five [useState] cells of the hook. *)
Record State : Type := mkState {
  tasks : list Task;
  loading : bool;
  error : option string;
  lastDeleted : option Task;
  lastDeletedToken : option string
}.

Definition initialState : State := mkState [] true None None None.

Definition setTasks (f : list Task -> list Task) (st : State) : State :=
  mkState (f (tasks st)) (loading st) (error st)
          (lastDeleted st) (lastDeletedToken st).

Definition setBuffer (d : option Task) (tok : option string) (st : State)
  : State :=
  mkState (tasks st) (loading st) (error st) d tok.

(* ================================================================= *)
(** ** Mutation engine *)

(** [t.id === id] for the argument [id : string] of [updateTask] and
    [deleteTask]. The argument is given its declared type; a caller that
    passes a stored id that is not a string is outside this embedding. *)
Definition hasId (i : string) (t : Task) : bool := strictEqStr (id t) i.

(** The record built by [addTask], lines 142-146. [uuid] is the value
    [crypto.randomUUID()] would return and [nowIso] the value of
    [new Date().toISOString()]. *)
Definition createTask (uuid nowIso : string) (task : NewTask) : Task :=
  let id' := coalesce (nt_id task) (JStr uuid) in
  let timeTaken' :=
    if le (nt_timeTaken task) zero then one else nt_timeTaken task in
  let createdAt' := nowIso in
  let completedAt' :=
    if strictEqStr (nt_status task) "Done" then JStr createdAt' else JUndef in
  mkTask id' (nt_title task) (nt_revenue task) timeTaken'
         (nt_priority task) (nt_status task) (nt_notes task)
         createdAt' completedAt'.

(** [addTask]: lines 140-148. *)
Definition addTask (uuid nowIso : string) (task : NewTask) (st : State)
  : State :=
  setTasks (fun prev => prev ++ [createTask uuid nowIso task]) st.

Definition over {A} (patch : option A) (old : A) : A :=
  match patch with Some v => v | None => old end.

(** [{ ...t, ...patch }] *)
Definition merge (t : Task) (p : Patch) : Task :=
  mkTask (over (p_id p) (id t)) (over (p_title p) (title t))
         (over (p_revenue p) (revenue t)) (over (p_timeTaken p) (timeTaken t))
         (over (p_priority p) (priority t)) (over (p_status p) (status t))
         (over (p_notes p) (notes t)) (over (p_createdAt p) (createdAt t))
         (over (p_completedAt p) (completedAt t)).

Definition withCompletedAt (c : JsVal) (t : Task) : Task :=
  mkTask (id t) (title t) (revenue t) (timeTaken t) (priority t) (status t)
         (notes t) (createdAt t) c.

Definition withTimeTaken (n : number) (t : Task) : Task :=
  mkTask (id t) (title t) (revenue t) n (priority t) (status t)
         (notes t) (createdAt t) (completedAt t).

(** The body of the [map] callback of [updateTask], lines 152-160. *)
Definition updateOne (nowIso : string) (i : string) (patch : Patch) (t : Task)
  : Task :=
  if negb (hasId i t) then t
  else
    let merged := merge t patch in
    let merged :=
      if negb (strictEqStr (status t) "Done")
         && strictEqStr (status merged) "Done"
         && negb (truthy (completedAt merged))
      then withCompletedAt (JStr nowIso) merged
      else merged in
    let merged :=
      if le (timeTaken merged) zero then withTimeTaken one merged
      else merged in
    merged.

Definition updateTask (nowIso : string) (i : string) (patch : Patch)
  (st : State) : State :=
  setTasks (fun prev => map (updateOne nowIso i patch) prev) st.

(* ================================================================= *)
(** ** Delete / undo protocol *)

(** [deleteTask]: lines 164-173. [token] is the freshly generated token. *)
Definition deleteTask (token : string) (i : string) (st : State) : State :=
  let prev := tasks st in
  let target := find (hasId i) prev in
  mkState (filter (fun t => negb (hasId i t)) prev) (loading st) (error st)
          target (Some token).

(** [token && token !== lastDeletedToken] for an optional string argument. *)
Definition tokenMismatch (token : option string) (cur : option string) : bool :=
  match token with
  | None => false
  | Some tok =>
      negb (String.eqb tok "")
      && negb (match cur with Some c => String.eqb tok c | None => false end)
  end.

(** [undoDelete], lines 175-186, as built by the render of [rendered] and
    called while the state is [st]. The [lastDeleted] and [lastDeletedToken]
    it tests, and the task it re-appends, are those of [rendered] (the
    dependencies of the callback); the updater [prev => [...prev,
    lastDeleted]] and the two setters act on [st]. *)
Definition undoDeleteFrom (rendered : State) (token : option string)
  (st : State) : State :=
  match lastDeleted rendered with
  | None => st
  | Some d =>
      if tokenMismatch token (lastDeletedToken rendered) then st
      else setBuffer None None (setTasks (fun prev => prev ++ [d]) st)
  end.

(** [undoDelete] called from the render of the state it acts on: no other
    call has been made since that render. *)
Definition undoDelete (token : option string) (st : State) : State :=
  undoDeleteFrom st token st.

(** [clearLastDeleted], lines 188-198, as built by the render of [rendered]
    and called while the state is [st]: the token it compares with is that
    of [rendered]. *)
Definition clearLastDeletedFrom (rendered : State) (token : option string)
  (st : State) : State :=
  if tokenMismatch token (lastDeletedToken rendered) then st
  else setBuffer None None st.

(** [clearLastDeleted] called from the render of the state it acts on. *)
Definition clearLastDeleted (token : option string) (st : State) : State :=
  clearLastDeletedFrom st token st.

(* ================================================================= *)
(** ** Dates *)

(** A [Date] object: its time value in milliseconds, [None] when the date is
    invalid (time value NaN). *)
Definition Date : Type := option Z.

(** Largest magnitude of a time value (ECMAScript TimeClip). *)
Definition maxTime : Z := 8640000000000000.

(** TimeClip on an integral number of milliseconds. The arithmetic of
    [normalizeTasks] on time values is exact in binary64 below 2^53, and
    every result beyond 2^53 is out of range both here and there. *)
Definition timeClipZ (t : Z) : Date :=
  if Z.abs t >? maxTime then None else Some t.

(** TimeClip on a [number]: NaN and the infinities are invalid, so is a
    magnitude above [maxTime]; otherwise the value is truncated. *)
Definition timeClip (n : number) : Date :=
  match n with
  | S754_nan | S754_infinity _ => None
  | S754_zero _ => Some 0
  | S754_finite s m e =>
      let tooBig :=
        if 0 <=? e then Z.shiftl (Zpos m) e >? maxTime
        else Zpos m >? Z.shiftl maxTime (- e) in
      if tooBig then None
      else Some ((if s then -1 else 1) * Z.shiftl (Zpos m) e)
  end.

(** [d.getTime() + ms] wrapped in [new Date(...)]. *)
Definition addMs (d : Date) (ms : Z) : Date :=
  match d with
  | Some t => timeClipZ (t + ms)
  | None => None
  end.

(* ================================================================= *)
(** ** Normalizer and load coordinator *)

Section Host.

(** Conversions that the JavaScript engine defines and the hook only calls. *)

(** [Number(s)] on a string. *)
Variable StringToNumber : string -> number.
(** String conversion of an array or of a plain object (ToPrimitive). *)
Variable ToPrimitiveString : JsVal -> string.
(** [Date.parse]; [None] is NaN. *)
Variable DateParse : string -> option Z.
(** [toISOString] of a valid time value. *)
Variable isoString : Z -> string.
(** The seed generator [generateSalesTasks] of ['@/utils/seed'], an external
    collaborator of the hook. *)
Variable generateSalesTasks : nat -> list Task.

(** [Number(v)] *)
Definition ToNumber (v : JsVal) : number :=
  match v with
  | JUndef => NaN
  | JNull => zero
  | JBool b => if b then one else zero
  | JNum n => n
  | JStr s => StringToNumber s
  | JArr _ | JObj _ => StringToNumber (ToPrimitiveString v)
  end.

(** [new Date(v)] *)
Definition newDate (v : JsVal) : Date :=
  match v with
  | JStr s => DateParse s
  | JArr _ | JObj _ => DateParse (ToPrimitiveString v)
  | JUndef | JNull | JBool _ | JNum _ => timeClip (ToNumber v)
  end.

(** [d.toISOString()]: a RangeError on an invalid date. *)
Definition toISOString (d : Date) : Result string :=
  match d with
  | Some t => Ok (isoString t)
  | None => Throw (RangeError "Invalid time value")
  end.

(** The callback of [map] in [normalizeTasks], lines 52-73. [now] is the
    value of [Date.now()] and [uuid] the identifier [crypto.randomUUID()]
    yields for this element. *)
Definition normalizeOne (now : Z) (uuid : string) (idx : nat) (t : JsVal)
  : Result Task :=
  rCreatedAt <- getProp t "createdAt" ;;
  let created :=
    if truthy rCreatedAt then newDate rCreatedAt
    else timeClipZ (now - (Z.of_nat idx + 1) * 24 * 3600 * 1000) in
  rCompletedAt <- getProp t "completedAt" ;;
  completed <-
    (if truthy rCompletedAt then Ok rCompletedAt
     else
       rStatus <- getProp t "status" ;;
       if strictEqStr rStatus "Done"
       then iso <- toISOString (addMs created (24 * 3600 * 1000)) ;;
            Ok (JStr iso)
       else Ok JUndef) ;;
  rId <- getProp t "id" ;;
  rTitle <- getProp t "title" ;;
  rRevenue <- getProp t "revenue" ;;
  rTimeTaken <- getProp t "timeTaken" ;;
  rPriority <- getProp t "priority" ;;
  rStatus <- getProp t "status" ;;
  rNotes <- getProp t "notes" ;;
  createdIso <- toISOString created ;;
  Ok (mkTask (coalesce rId (JStr uuid))
             (or_else rTitle (JStr "Untitled"))
             (if isFinite (ToNumber rRevenue) then ToNumber rRevenue else zero)
             (if gt (ToNumber rTimeTaken) zero then ToNumber rTimeTaken
              else one)
             (or_else rPriority (JStr "Low"))
             (or_else rStatus (JStr "Todo"))
             (or_else rNotes (JStr ""))
             createdIso
             completed).

(** [Array.prototype.map] with the index, stopping at the first exception. *)
Fixpoint mapIdx (f : nat -> JsVal -> Result Task) (idx : nat)
  (l : list JsVal) : Result (list Task) :=
  match l with
  | [] => Ok []
  | t :: rest =>
      x <- f idx t ;;
      xs <- mapIdx f (S idx) rest ;;
      Ok (x :: xs)
  end.

(** [normalizeTasks], lines 50-74. [uuid idx] is the identifier generated
    for the element at [idx]. *)
Definition normalizeTasks (now : Z) (uuid : nat -> string) (input : JsVal)
  : Result (list Task) :=
  let elems := match input with JArr l => l | _ => [] end in
  mapIdx (fun idx t => normalizeOne now (uuid idx) idx t) 0%nat elems.

(** What [fetch('/tasks.json')] delivers: a transport error, or a response
    with its [ok] flag, its status and the outcome of [res.json()]. *)
Inductive FetchOutcome : Type :=
| NetworkError (msg : string)
| Response (ok : bool) (status : Z) (body : Result JsVal).

(** The [try] block of the cached promise, lines 86-90. The status of the
    response is an integer, rendered in decimal in the message. *)
Definition fetchTasks (now : Z) (uuid : nat -> string) (o : FetchOutcome)
  : Result (list Task) :=
  match o with
  | NetworkError msg => Throw (Error msg)
  | Response ok status body =>
      if negb ok
      then Throw (Error (String.append "Failed to load tasks.json ("
                           (String.append
                              (NilZero.string_of_int (Z.to_int status))
                              ")")))
      else
        data <- body ;;
        normalized <- normalizeTasks now uuid data ;;
        Ok (if (0 <? List.length normalized)%nat then normalized
            else generateSalesTasks 50)
  end.

(** The value read for the property [k] of a record that is neither
    [undefined] nor [null]. *)
Definition prop (t : JsVal) (k : string) : JsVal :=
  match getProp t k with Ok v => v | Throw _ => JUndef end.

(** The [Date] that [normalizeTasks] computes for the element [t] at [idx]. *)
Definition createdOf (now : Z) (idx : nat) (t : JsVal) : Date :=
  if truthy (prop t "createdAt") then newDate (prop t "createdAt")
  else timeClipZ (now - (Z.of_nat idx + 1) * 24 * 3600 * 1000).

(** The module-level [tasksFetchPromise]. A rejected promise is never kept:
    the [catch] block resets the handle before rethrowing. *)
Inductive Promise : Type :=
| Pending
| Fulfilled (data : list Task).

(** The load handle together with a count of the [fetch] calls made so far
    (the count is an observation, not a variable of the hook). *)
Record Loader : Type := mkLoader {
  tasksFetchPromise : option Promise;
  requests : nat
}.

Definition initialLoader : Loader := mkLoader None 0.

(** One run of the effect, lines 82-98: start a request only when there is
    no handle. *)
Definition trigger (c : Loader) : Loader :=
  match tasksFetchPromise c with
  | None => mkLoader (Some Pending) (S (requests c))
  | Some _ => c
  end.

(** The pending request settles with [r]: the promise is fulfilled, or the
    handle is reset (lines 91-96). *)
Definition settle (r : Result (list Task)) (c : Loader) : Loader :=
  match tasksFetchPromise c with
  | Some Pending =>
      match r with
      | Ok data => mkLoader (Some (Fulfilled data)) (requests c)
      | Throw _ => mkLoader None (requests c)
      end
  | _ => c
  end.

Inductive LoadEvent : Type :=
| Trigger
| Settle (r : Result (list Task)).

Definition loaderStep (e : LoadEvent) (c : Loader) : Loader :=
  match e with
  | Trigger => trigger c
  | Settle r => settle r c
  end.

Definition runLoader (evs : list LoadEvent) (c : Loader) : Loader :=
  fold_left (fun c e => loaderStep e c) evs c.

Definition isFailure (e : LoadEvent) : bool :=
  match e with
  | Settle (Throw _) => true
  | _ => false
  end.

(** [e?.message]: all three kinds of exception carry a message. *)
Definition message (e : Exn) : string :=
  match e with
  | TypeError m | RangeError m | Error m => m
  end.

(** The waiter of one consumer, lines 101-110. *)
Definition onSettled (isMounted : bool) (r : Result (list Task)) (st : State)
  : State :=
  if isMounted then
    match r with
    | Ok finalData =>
        mkState finalData false (error st)
                (lastDeleted st) (lastDeletedToken st)
    | Throw e =>
        mkState (tasks st) false (Some (message e))
                (lastDeleted st) (lastDeletedToken st)
    end
  else st.

(* ================================================================= *)
(** ** Operation sequences *)

(** The operations that change the hook state. [OpLoad r] is the shared
    promise settling with [r] for a mounted consumer; the environment values
    consulted by the other operations are part of the operation.
    [step op st] is the state rendered after an event in which [op] is the
    only call, made from the render of [st]; [run] is a sequence of such
    events, with a render between consecutive calls. *)
Inductive Op : Type :=
| OpLoad (r : Result (list Task))
| OpAdd (uuid nowIso : string) (task : NewTask)
| OpUpdate (nowIso : string) (i : string) (patch : Patch)
| OpDelete (token : string) (i : string)
| OpUndo (token : option string)
| OpClear (token : option string).

Definition step (op : Op) (st : State) : State :=
  match op with
  | OpLoad r => onSettled true r st
  | OpAdd uuid nowIso task => addTask uuid nowIso task st
  | OpUpdate nowIso i patch => updateTask nowIso i patch st
  | OpDelete token i => deleteTask token i st
  | OpUndo token => undoDelete token st
  | OpClear token => clearLastDeleted token st
  end.

Definition run (ops : list Op) (st : State) : State :=
  fold_left (fun st op => step op st) ops st.

(* ================================================================= *)
(** ** Calls and renders

    Between two renders the callbacks of the hook are those of the last
    render. [Hook] keeps that render beside the state that the calls made
    since have produced. A call acts on the latter; [undoDelete] and
    [clearLastDeleted] decide from the former. [Render] makes the state the
    new render.

    [deleteTask] calls the two setters of the buffer from inside its updater
    of the task list, and when React runs that updater is not fixed by the
    hook; here the setters of a call take effect when the call is made. The
    task list does not depend on that choice, and the statements about
    calls that share a render speak of the task list only. *)

Record Hook : Type := mkHook {
  rendered : State;
  pending : State
}.

Inductive Action : Type :=
| Call (op : Op)
| Render.

(** The call [op] made with the callbacks of the render [r], on the
    state [st]. *)
Definition callFrom (r : State) (op : Op) (st : State) : State :=
  match op with
  | OpLoad res => onSettled true res st
  | OpAdd uuid nowIso task => addTask uuid nowIso task st
  | OpUpdate nowIso i patch => updateTask nowIso i patch st
  | OpDelete token i => deleteTask token i st
  | OpUndo token => undoDeleteFrom r token st
  | OpClear token => clearLastDeletedFrom r token st
  end.

Definition act (h : Hook) (a : Action) : Hook :=
  match a with
  | Call op => mkHook (rendered h) (callFrom (rendered h) op (pending h))
  | Render => mkHook (pending h) (pending h)
  end.

Definition play (l : list Action) (h : Hook) : Hook := fold_left act l h.

(** The hook as rendered with the state [st], no call made yet. *)
Definition mounted (st : State) : Hook := mkHook st st.

(** Every call in an event of its own: a render follows each. *)
Definition separately (ops : list Op) : list Action :=
  flat_map (fun op => [Call op; Render]) ops.

(* ================================================================= *)
(** ** The history of a task

    The statement about [completedAt] speaks of the statuses a task has had.
    The hook keeps no such record, so the operations are replayed on tasks
    paired with one: [everDone] is set when the task enters the state with
    status "Done" and whenever an update leaves it with that status.
    [forget] drops the record; [hstep_forget] below shows that the replay
    is the hook's own behaviour. *)

Definition isDone (t : Task) : bool := strictEqStr (status t) "Done".

Record Tracked : Type := mkTracked {
  task_of : Task;
  everDone : bool
}.

Definition track (t : Task) : Tracked := mkTracked t (isDone t).

Definition retrack (f : Task -> Task) (x : Tracked) : Tracked :=
  mkTracked (f (task_of x)) (everDone x || isDone (f (task_of x))).

Record HState : Type := mkHState {
  h_tasks : list Tracked;
  h_loading : bool;
  h_error : option string;
  h_lastDeleted : option Tracked;
  h_lastDeletedToken : option string
}.

Definition h_initial : HState := mkHState [] true None None None.

Definition forget (h : HState) : State :=
  mkState (map task_of (h_tasks h)) (h_loading h) (h_error h)
          (option_map task_of (h_lastDeleted h)) (h_lastDeletedToken h).

Definition hstep (op : Op) (h : HState) : HState :=
  match op with
  | OpLoad (Ok finalData) =>
      mkHState (map track finalData) false (h_error h)
               (h_lastDeleted h) (h_lastDeletedToken h)
  | OpLoad (Throw e) =>
      mkHState (h_tasks h) false (Some (message e))
               (h_lastDeleted h) (h_lastDeletedToken h)
  | OpAdd uuid nowIso task =>
      mkHState (h_tasks h ++ [track (createTask uuid nowIso task)])
               (h_loading h) (h_error h)
               (h_lastDeleted h) (h_lastDeletedToken h)
  | OpUpdate nowIso i patch =>
      mkHState (map (retrack (updateOne nowIso i patch)) (h_tasks h))
               (h_loading h) (h_error h)
               (h_lastDeleted h) (h_lastDeletedToken h)
  | OpDelete token i =>
      mkHState (filter (fun x => negb (hasId i (task_of x))) (h_tasks h))
               (h_loading h) (h_error h)
               (find (fun x => hasId i (task_of x)) (h_tasks h)) (Some token)
  | OpUndo token =>
      match h_lastDeleted h with
      | None => h
      | Some d =>
          if tokenMismatch token (h_lastDeletedToken h) then h
          else mkHState (h_tasks h ++ [d]) (h_loading h) (h_error h) None None
      end
  | OpClear token =>
      if tokenMismatch token (h_lastDeletedToken h) then h
      else mkHState (h_tasks h) (h_loading h) (h_error h) None None
  end.

Definition hrun (ops : list Op) (h : HState) : HState :=
  fold_left (fun h op => hstep op h) ops h.

(** [completedAt] is present: the property exists with a value other than
    [undefined]. *)
Definition present (v : JsVal) : bool :=
  match v with JUndef => false | _ => true end.

(** A task list as a load may deliver it when the statement about
    [completedAt] is to hold from then on: [completedAt] is either absent or
    a truthy value, and it is there exactly on the "Done" tasks. *)
Definition completedMatchesStatus (t : Task) : bool :=
  Bool.eqb (present (completedAt t)) (isDone t)
  && Bool.eqb (truthy (completedAt t)) (present (completedAt t)).

(** The operations under which the statement about [completedAt] holds:
    timestamps are non-empty strings (as every ISO timestamp is), an update
    does not carry a [completedAt] key, and a load delivers tasks whose
    [completedAt] matches their status. *)
Definition keepsCompletedAt (op : Op) : bool :=
  match op with
  | OpLoad (Ok finalData) => forallb completedMatchesStatus finalData
  | OpLoad (Throw _) => true
  | OpAdd _ nowIso _ => negb (String.eqb nowIso "")
  | OpUpdate nowIso _ patch =>
      negb (String.eqb nowIso "")
      && match p_completedAt patch with None => true | Some _ => false end
  | OpDelete _ _ | OpUndo _ | OpClear _ => true
  end.

(** The invariant: a task that never was "Done" has no [completedAt]; a task
    that was has a truthy one. *)
Definition consistent (x : Tracked) : Prop :=
  (completedAt (task_of x) = JUndef /\ everDone x = false
   /\ isDone (task_of x) = false)
  \/ (truthy (completedAt (task_of x)) = true /\ everDone x = true).

Definition hinv (h : HState) : Prop :=
  (forall x, In x (h_tasks h) -> consistent x) /\
  (forall d, h_lastDeleted h = Some d -> consistent d).

(** The record is sound: a task that is "Done" is recorded as such. *)
Definition recorded (x : Tracked) : Prop :=
  isDone (task_of x) = true -> everDone x = true.

Definition hrecorded (h : HState) : Prop :=
  (forall x, In x (h_tasks h) -> recorded x) /\
  (forall d, h_lastDeleted h = Some d -> recorded d).

(** [timeTaken > 0] on a stored task, and the operations that supply no
    NaN: a load delivers positive values, [addTask] and [updateTask] are
    given numbers other than NaN. *)
Definition positiveTime (t : Task) : bool := gt (timeTaken t) zero.

Definition suppliesNoNaN (op : Op) : bool :=
  match op with
  | OpLoad (Ok finalData) => forallb positiveTime finalData
  | OpLoad (Throw _) => true
  | OpAdd _ _ task => negb (isNaN (nt_timeTaken task))
  | OpUpdate _ _ patch =>
      match p_timeTaken patch with
      | Some v => negb (isNaN v)
      | None => true
      end
  | OpDelete _ _ | OpUndo _ | OpClear _ => true
  end.

Definition allPositive (st : State) : Prop :=
  (forall t, In t (tasks st) -> positiveTime t = true) /\
  (forall d, lastDeleted st = Some d -> positiveTime d = true).

(** A raw record that carries a [completedAt] only together with the status
    "Done". *)
Definition rawCompletedOnlyIfDone (t : JsVal) : bool :=
  match getProp t "completedAt", getProp t "status" with
  | Ok c, Ok s => implb (truthy c) (strictEqStr s "Done")
  | _, _ => true
  end.

(* ================================================================= *)
(** ** Metrics *)

(** [a + b] on numbers: binary64 addition, rounding to nearest even. *)
Definition add (a b : number) : number := SFadd 53 1024 a b.

(** The [Metrics] snapshot; the type is imported from ['@/types'], its
    fields are those of the literal [INITIAL_METRICS], lines 33-40. *)
Record Metrics : Type := mkMetrics {
  totalRevenue : number;
  totalTimeTaken : number;
  timeEfficiencyPct : number;
  revenuePerHour : number;
  averageROI : number;
  performanceGrade : string
}.

Definition INITIAL_METRICS : Metrics :=
  mkMetrics zero zero zero zero zero "Needs Improvement".

(** The formulas of ['@/utils/logic'], external to the hook. *)
Variable computeTotalRevenue : list Task -> number.
Variable computeTimeEfficiency : list Task -> number.
Variable computeRevenuePerHour : list Task -> number.
Variable computeAverageROI : list Task -> number.
Variable computePerformanceGrade : number -> string.

(** [tasks.reduce((s, t) => s + t.timeTaken, 0)] *)
Definition sumTimeTaken (l : list Task) : number :=
  fold_left (fun s t => add s (timeTaken t)) l zero.

(** The [metrics] memo, lines 122-138. *)
Definition metrics (l : list Task) : Metrics :=
  if (List.length l =? 0)%nat then INITIAL_METRICS
  else
    let totalRevenue' := computeTotalRevenue l in
    let totalTimeTaken' := sumTimeTaken l in
    let timeEfficiencyPct' := computeTimeEfficiency l in
    let revenuePerHour' := computeRevenuePerHour l in
    let averageROI' := computeAverageROI l in
    let performanceGrade' := computePerformanceGrade averageROI' in
    mkMetrics totalRevenue' totalTimeTaken' timeEfficiencyPct'
              revenuePerHour' averageROI' performanceGrade'.

(* ================================================================= *)
(** ** Predicates on states and histories *)

(** An operation that is [undoDelete] or [clearLastDeleted]. *)
Definition onlyUndoClear (op : Op) : bool :=
  match op with
  | OpUndo _ | OpClear _ => true
  | _ => false
  end.

(** A buffered task comes with a token. *)
Definition buffered_has_token (st : State) : Prop :=
  lastDeleted st <> None -> lastDeletedToken st <> None.

(** No task of the list and no buffered task has the id [i]. *)
Definition gone (i : string) (st : State) : Prop :=
  (forall t, In t (tasks st) -> hasId i t = false) /\
  (forall d, lastDeleted st = Some d -> hasId i d = false).

(** [x <= 0 ? 1 : x] *)
Definition repair (x : number) : number := if le x zero then one else x.

(* ================================================================= *)
(** ** Sample data of the worked examples *)

Definition sampleTask (i : string) (s : string) (c : JsVal) : Task :=
  mkTask (JStr i) (JStr "Call client") zero one (JStr "Low") (JStr s)
         (JStr "") "2024-01-01T00:00:00.000Z" c.

Definition taskA : Task := sampleTask "t-1" "Todo" JUndef.
Definition taskB : Task := sampleTask "t-2" "In Progress" JUndef.
Definition taskC : Task := sampleTask "t-3" "Todo" JUndef.

Definition stateOf (l : list Task) : State := mkState l false None None None.

(** [taskA] was just deleted: it is buffered under the token "tok-1". *)
Definition bufferedState : State :=
  deleteTask "tok-1" "t-1" (stateOf [taskA; taskB]).

(** A new task whose [timeTaken] is NaN (what [Number('abc')] yields). *)
Definition nanTask : NewTask :=
  mkNewTask JUndef (JStr "Follow up") zero NaN (JStr "Low") (JStr "Todo")
            (JStr "").

(** 1e16 as a binary64: 5e15 * 2^1. As a time value it is out of range. *)
Definition tenToThe16 : number := S754_finite false 5000000000000000 1.

(** A raw record whose [createdAt] is not a valid date. *)
Definition badDateRecord : JsVal :=
  JObj [("id", JStr "t-7"); ("title", JStr "Bad date");
        ("createdAt", JNum tenToThe16)].

(** A history that stays within [keepsCompletedAt]. *)
Definition sampleOps : list Op :=
  [ OpAdd "t-9" "2024-05-01T10:00:00.000Z"
      (mkNewTask JUndef (JStr "Demo") zero one (JStr "Low") (JStr "Todo")
                 (JStr ""));
    OpUpdate "2024-05-02T10:00:00.000Z" "t-9" (statusPatch "Done");
    OpUpdate "2024-05-03T10:00:00.000Z" "t-9" (statusPatch "Todo");
    OpDelete "tok-1" "t-9";
    OpUndo None ].

(** A history in which an update writes [completedAt] on a task that never
    was "Done". *)
Definition stampingOps : list Op :=
  [ OpAdd "t-9" "2024-05-01T10:00:00.000Z"
      (mkNewTask JUndef (JStr "Demo") zero one (JStr "Low") (JStr "Todo")
                 (JStr ""));
    OpUpdate "2024-05-02T10:00:00.000Z" "t-9"
      (mkPatch None None None None None None None None
               (Some (JStr "2024-04-30T08:00:00.000Z"))) ].

(** A host for the worked examples. Its conversions are constant; the
    examples use inputs on which they are not consulted (numbers and absent
    fields), except [isoString], whose result only labels the output. *)
Definition constStringToNumber : string -> number := fun _ => NaN.
Definition constToPrimitiveString : JsVal -> string :=
  fun _ => "[object Object]".
Definition constDateParse : string -> option Z := fun _ => None.
Definition constIsoString : Z -> string :=
  fun _ => "2024-01-01T00:00:00.000Z".
Definition constSeed : nat -> list Task :=
  fun n => repeat (sampleTask "seed" "Todo" JUndef) n.

(** Two raw records without dates, the first one "Done". *)
Definition rawPair : list JsVal :=
  [ JObj [("id", JStr "r-1"); ("status", JStr "Done")];
    JObj [("title", JStr "Second"); ("timeTaken", JNum NaN)] ].

(** A patch that renames a task and marks it "Done". *)
Definition donePatch : Patch :=
  mkPatch None (Some (JStr "Renamed")) None (Some zero) None
          (Some (JStr "Done")) None None None.

(** A history without NaN. *)
Definition numberOps : list Op :=
  [ OpAdd "t-9" "2024-05-01T10:00:00.000Z"
      (mkNewTask JUndef (JStr "Demo") zero zero (JStr "Low") (JStr "Todo")
                 (JStr ""));
    OpUpdate "2024-05-02T10:00:00.000Z" "t-9" donePatch;
    OpDelete "tok-1" "t-9";
    OpUndo (Some "tok-1") ].

(** Two tasks share the id "t-1". *)
Definition duplicateState : State :=
  stateOf [taskA; taskB; sampleTask "t-1" "Done" JUndef].

(** The task that [numberOps] leaves in the list. *)
Definition numberOpsResult : Task :=
  mkTask (JStr "t-9") (JStr "Renamed") zero one (JStr "Low") (JStr "Done")
         (JStr "") "2024-05-01T10:00:00.000Z"
         (JStr "2024-05-02T10:00:00.000Z").

(** What the normalizer makes of the first record of [rawPair] on the host
    of the examples. *)
Definition rawDoneNormalized : Task :=
  mkTask (JStr "r-1") (JStr "Untitled") zero one (JStr "Low") (JStr "Done")
         (JStr "") "2024-01-01T00:00:00.000Z"
         (JStr "2024-01-01T00:00:00.000Z").

(** What the normalizer makes of [rawPair] on the host of the examples. *)
Definition rawPairNormalized : list Task :=
  [ mkTask (JStr "r-1") (JStr "Untitled") zero one (JStr "Low") (JStr "Done")
           (JStr "") "2024-01-01T00:00:00.000Z"
           (JStr "2024-01-01T00:00:00.000Z");
    mkTask (JStr "uuid-0") (JStr "Second") zero one (JStr "Low")
           (JStr "Todo") (JStr "") "2024-01-01T00:00:00.000Z" JUndef ].

(** Constant formulas for the examples on metrics. *)
Definition constFormula : list Task -> number := fun _ => zero.
Definition constGrade : number -> string := fun _ => "Needs Improvement".

(* ================================================================= *)
(** * Properties *)

(** ** Lists *)

Lemma find_none_filter_id {A} (p : A -> bool) (l : list A) :
  (forall x, In x l -> p x = false) ->
  find p l = None /\ filter (fun x => negb (p x)) l = l.
Proof.
  induction l as [|a l IH]; intros H; simpl; [split; reflexivity|].
  rewrite (H a (or_introl eq_refl)); simpl.
  destruct IH as [IH1 IH2]; [intros x Hx; apply H; right; exact Hx|].
  rewrite IH1, IH2. split; reflexivity.
Qed.

Lemma find_first {A} (p : A -> bool) (before after : list A) (x : A) :
  (forall y, In y before -> p y = false) -> p x = true ->
  find p (before ++ x :: after) = Some x.
Proof.
  induction before as [|a l IH]; intros H Hx; simpl.
  - rewrite Hx. reflexivity.
  - rewrite (H a (or_introl eq_refl)). apply IH; [|exact Hx].
    intros y Hy. apply H. right. exact Hy.
Qed.

(** ** Delete / undo protocol *)

(** C10. [deleteTask id] removes every task whose id is [id] (all of them
    when several share it) and keeps every other task; the buffer receives
    the first task of the list with that id, under the new token. *)
Theorem deleteTask_removes_all_buffers_first :
  forall (token i : string) (st : State),
    (forall t, In t (tasks (deleteTask token i st)) <->
               In t (tasks st) /\ hasId i t = false) /\
    (forall before t after,
        tasks st = before ++ t :: after ->
        (forall y, In y before -> hasId i y = false) ->
        hasId i t = true ->
        lastDeleted (deleteTask token i st) = Some t) /\
    lastDeletedToken (deleteTask token i st) = Some token.
Proof.
  intros token i st. unfold deleteTask; simpl.
  split; [|split; [|reflexivity]].
  - intros t. rewrite filter_In, negb_true_iff. tauto.
  - intros before t after Heq Hb Ht. rewrite Heq.
    apply find_first; assumption.
Qed.

(** C1 (as amended). When no task of the list has the given id, [deleteTask]
    leaves the task list unchanged, but it still overwrites the buffer:
    [lastDeleted] becomes empty and [lastDeletedToken] the new token. *)
Theorem deleteTask_missing_id :
  forall (token i : string) (st : State),
    (forall t, In t (tasks st) -> hasId i t = false) ->
    tasks (deleteTask token i st) = tasks st /\
    lastDeleted (deleteTask token i st) = None /\
    lastDeletedToken (deleteTask token i st) = Some token.
Proof.
  intros token i st H. unfold deleteTask; simpl.
  destruct (find_none_filter_id (hasId i) (tasks st) H) as [H1 H2].
  rewrite H1, H2. repeat split.
Qed.

Lemma deleteTask_missing_id_witness :
  tasks (deleteTask "tok-2" "t-9" bufferedState) = tasks bufferedState /\
  lastDeleted (deleteTask "tok-2" "t-9" bufferedState) = None /\
  lastDeletedToken (deleteTask "tok-2" "t-9" bufferedState) = Some "tok-2".
Proof.
  apply (deleteTask_missing_id "tok-2" "t-9" bufferedState).
  intros t Ht. simpl in Ht. destruct Ht as [Ht|[]]. subst t. reflexivity.
Defined.

(** C1, the statement of the specification refuted: with [taskA] buffered
    under "tok-1", deleting the id "t-9", which no task has, empties
    [lastDeleted] and replaces the token. *)
Lemma deleteTask_missing_id_changes_buffer :
  (forall t, In t (tasks bufferedState) -> hasId "t-9" t = false) /\
  lastDeleted bufferedState = Some taskA /\
  lastDeletedToken bufferedState = Some "tok-1" /\
  ~ (tasks (deleteTask "tok-2" "t-9" bufferedState) = tasks bufferedState /\
     lastDeleted (deleteTask "tok-2" "t-9" bufferedState)
       = lastDeleted bufferedState /\
     lastDeletedToken (deleteTask "tok-2" "t-9" bufferedState)
       = lastDeletedToken bufferedState).
Proof.
  repeat split.
  - intros t Ht. simpl in Ht. destruct Ht as [Ht|[]]. subst t. reflexivity.
  - intros [_ [H _]]. vm_compute in H. discriminate H.
Qed.

(** C5. With a task in the buffer, [undoDelete] called without a token or
    with the buffered token appends the buffered task at the end of the list
    and empties [lastDeleted] and [lastDeletedToken]; with an empty buffer
    it changes nothing. *)
Theorem undoDelete_restores_at_end :
  forall (st : State) (token : option string),
    (forall d,
        lastDeleted st = Some d ->
        token = None \/ token = lastDeletedToken st ->
        undoDelete token st
        = mkState (tasks st ++ [d]) (loading st) (error st) None None) /\
    (lastDeleted st = None -> undoDelete token st = st).
Proof.
  intros st token. split.
  - intros d Hd Htok. unfold undoDelete, undoDeleteFrom. rewrite Hd.
    assert (Hm : tokenMismatch token (lastDeletedToken st) = false).
    { destruct Htok as [->| <-]; [reflexivity|].
      destruct token as [tok|]; [|reflexivity]. simpl.
      rewrite String.eqb_refl. simpl. apply andb_false_r. }
    rewrite Hm. reflexivity.
  - intros Hd. unfold undoDelete, undoDeleteFrom. rewrite Hd. reflexivity.
Qed.

Lemma tokenMismatch_stale (tok cur : string) :
  tok <> "" -> tok <> cur -> tokenMismatch (Some tok) (Some cur) = true.
Proof.
  intros H1 H2. simpl.
  apply String.eqb_neq in H1. apply String.eqb_neq in H2.
  rewrite H1, H2. reflexivity.
Qed.


(** [deleteTask] then, from the next render, [undoDelete ()]: the task
    comes back at the end, not at the index it had. *)
Example delete_then_undo_appends :
  tasks (undoDelete None
           (deleteTask "tok-1" "t-1" (stateOf [taskA; taskB; taskC])))
  = [taskB; taskC; taskA].
Proof. reflexivity. Qed.

(** ** Mutation engine *)

Lemma updateOne_other (nowIso i : string) (patch : Patch) (t : Task) :
  hasId i t = false -> updateOne nowIso i patch t = t.
Proof. intros H. unfold updateOne. rewrite H. reflexivity. Qed.

(** An update that carries only a status leaves every other field but
    [completedAt] and [timeTaken] alone; [completedAt] is stamped exactly
    when the task enters "Done" without one. *)
Lemma updateOne_status (nowIso i s : string) (t : Task) :
  hasId i t = true ->
  let t' := updateOne nowIso i (statusPatch s) t in
  id t' = id t /\ status t' = JStr s /\
  completedAt t' =
    (if negb (isDone t) && String.eqb s "Done"
        && negb (truthy (completedAt t))
     then JStr nowIso else completedAt t).
Proof.
  intros H. unfold updateOne. rewrite H. simpl. unfold isDone.
  destruct (negb (strictEqStr (status t) "Done") && String.eqb s "Done"
            && negb (truthy (completedAt t))); simpl;
    destruct (le (timeTaken t) zero); simpl; repeat split.
Qed.

(** C3. A task that is not "Done" and has no [completedAt] gets one from
    [updateTask id {status: 'Done'}]; the same update applied again keeps
    that value; and setting the status of a "Done" task to another value
    keeps its [completedAt]. *)
Theorem updateTask_done_stamps_once :
  forall (st : State) (n : nat) (t : Task) (i now1 now2 : string),
    nth_error (tasks st) n = Some t ->
    hasId i t = true ->
    isDone t = false ->
    completedAt t = JUndef ->
    (exists t1 t2,
        nth_error (tasks (updateTask now1 i (statusPatch "Done") st)) n
          = Some t1 /\
        completedAt t1 = JStr now1 /\ isDone t1 = true /\
        nth_error
          (tasks (updateTask now2 i (statusPatch "Done")
                    (updateTask now1 i (statusPatch "Done") st))) n
          = Some t2 /\
        completedAt t2 = completedAt t1) /\
    (forall (st' : State) (m : nat) (d : Task) (j now3 s : string),
        nth_error (tasks st') m = Some d ->
        isDone d = true ->
        s <> "Done" ->
        exists d',
          nth_error (tasks (updateTask now3 j (statusPatch s) st')) m
            = Some d' /\
          completedAt d' = completedAt d).
Proof.
  intros st n t i now1 now2 Hn Hid Hnd Hca. split.
  - pose (t1 := updateOne now1 i (statusPatch "Done") t).
    destruct (updateOne_status now1 i "Done" t Hid) as [Hid1 [Hst1 Hc1]].
    fold t1 in Hid1, Hst1, Hc1.
    rewrite Hnd, Hca in Hc1. simpl in Hc1.
    assert (Hid1' : hasId i t1 = true).
    { unfold hasId. rewrite Hid1. exact Hid. }
    assert (Hd1 : isDone t1 = true).
    { unfold isDone. rewrite Hst1. reflexivity. }
    destruct (updateOne_status now2 i "Done" t1 Hid1') as [_ [_ Hc2]].
    rewrite Hd1 in Hc2. simpl in Hc2.
    exists t1, (updateOne now2 i (statusPatch "Done") t1).
    unfold updateTask, setTasks; simpl.
    rewrite !nth_error_map, Hn. simpl. fold t1.
    repeat split; assumption.
  - intros st' m d j now3 s Hm Hd Hs.
    exists (updateOne now3 j (statusPatch s) d).
    unfold updateTask, setTasks; simpl.
    rewrite nth_error_map, Hm. simpl. split; [reflexivity|].
    destruct (hasId j d) eqn:Hj.
    + destruct (updateOne_status now3 j s d Hj) as [_ [_ Hc]].
      rewrite Hd in Hc. simpl in Hc. exact Hc.
    + rewrite updateOne_other by exact Hj. reflexivity.
Qed.

Lemma updateTask_done_stamps_once_witness :
  (exists t1 t2,
      nth_error
        (tasks (updateTask "2024-05-01T10:00:00.000Z" "t-2"
                  (statusPatch "Done") (stateOf [taskA; taskB]))) 1
        = Some t1 /\
      completedAt t1 = JStr "2024-05-01T10:00:00.000Z" /\
      isDone t1 = true /\
      nth_error
        (tasks (updateTask "2024-05-02T10:00:00.000Z" "t-2"
                  (statusPatch "Done")
                  (updateTask "2024-05-01T10:00:00.000Z" "t-2"
                     (statusPatch "Done") (stateOf [taskA; taskB])))) 1
        = Some t2 /\
      completedAt t2 = completedAt t1) /\
  (forall (st' : State) (m : nat) (d : Task) (j now3 s : string),
      nth_error (tasks st') m = Some d ->
      isDone d = true ->
      s <> "Done" ->
      exists d',
        nth_error (tasks (updateTask now3 j (statusPatch s) st')) m
          = Some d' /\
        completedAt d' = completedAt d).
Proof.
  apply (updateTask_done_stamps_once (stateOf [taskA; taskB]) 1 taskB "t-2"
           "2024-05-01T10:00:00.000Z" "2024-05-02T10:00:00.000Z");
    reflexivity.
Defined.

(** Leaving "Done": the timestamp of completion stays. *)
Example leaving_done_keeps_completedAt :
  map completedAt
    (tasks (updateTask "2024-05-03T10:00:00.000Z" "t-1" (statusPatch "Todo")
              (stateOf [sampleTask "t-1" "Done"
                          (JStr "2024-05-01T10:00:00.000Z")])))
  = [JStr "2024-05-01T10:00:00.000Z"].
Proof. reflexivity. Qed.

(** ** Numbers *)

Lemma gt_zero_not_le (x : number) : gt x zero = true -> le x zero = false.
Proof.
  unfold gt, le, zero, SFltb, SFleb.
  destruct x as [s|s| |s m e]; try destruct s; simpl; congruence.
Qed.

Lemma not_le_zero_gt (x : number) :
  isNaN x = false -> le x zero = false -> gt x zero = true.
Proof.
  unfold gt, le, zero, SFltb, SFleb.
  destruct x as [s|s| |s m e]; try destruct s; simpl; congruence.
Qed.

(** The repair [x <= 0 ? 1 : x] yields a positive number, except on NaN,
    which it lets through. *)
Lemma repair_positive (x : number) :
  isNaN x = false -> gt (if le x zero then one else x) zero = true.
Proof.
  intros H. destruct (le x zero) eqn:E; [reflexivity|].
  apply not_le_zero_gt; assumption.
Qed.

(** The test [x > 0 ? x : 1] of the normalizer yields a positive number on
    every input, NaN included. *)
Lemma coerce_positive (x : number) :
  gt (if gt x zero then x else one) zero = true.
Proof. destruct (gt x zero) eqn:E; [exact E|reflexivity]. Qed.

(** ** Normalizer *)

Lemma getProp_prop (t : JsVal) (k : string) :
  nullish t = false -> getProp t k = Ok (prop t k).
Proof. destruct t; simpl; intros H; try discriminate H; reflexivity. Qed.

Lemma timeClipZ_some (t t' : Z) : timeClipZ t = Some t' -> t' = t.
Proof.
  unfold timeClipZ. destruct (Z.abs t >? maxTime); congruence.
Qed.

(** What a successful call of the [map] callback returns. *)
Lemma normalizeOne_ok (now : Z) (uuid : string) (idx : nat) (t : JsVal)
  (x : Task) :
  normalizeOne now uuid idx t = Ok x ->
  nullish t = false /\
  exists t0,
    createdOf now idx t = Some t0 /\
    x = mkTask (coalesce (prop t "id") (JStr uuid))
               (or_else (prop t "title") (JStr "Untitled"))
               (if isFinite (ToNumber (prop t "revenue"))
                then ToNumber (prop t "revenue") else zero)
               (if gt (ToNumber (prop t "timeTaken")) zero
                then ToNumber (prop t "timeTaken") else one)
               (or_else (prop t "priority") (JStr "Low"))
               (or_else (prop t "status") (JStr "Todo"))
               (or_else (prop t "notes") (JStr ""))
               (isoString t0)
               (if truthy (prop t "completedAt") then prop t "completedAt"
                else if strictEqStr (prop t "status") "Done"
                     then JStr (isoString (t0 + 24 * 3600 * 1000))
                     else JUndef).
Proof.
  intros H.
  destruct (nullish t) eqn:Hn.
  { destruct t; simpl in Hn; try discriminate Hn; simpl in H; discriminate H. }
  split; [reflexivity|].
  unfold normalizeOne in H. rewrite !(getProp_prop t _ Hn) in H.
  cbn [bind] in H. fold (createdOf now idx t) in H.
  destruct (createdOf now idx t) as [t0|].
  - exists t0. split; [reflexivity|].
    destruct (truthy (prop t "completedAt")); cbn [bind toISOString] in H.
    + inversion H. reflexivity.
    + destruct (strictEqStr (prop t "status") "Done").
      * unfold addMs in H. destruct (timeClipZ (t0 + 24 * 3600 * 1000)) as [t1|] eqn:E;
          cbn [bind toISOString] in H; [|discriminate H].
        apply timeClipZ_some in E. subst t1. inversion H. reflexivity.
      * cbn [bind] in H. inversion H. reflexivity.
  - destruct (truthy (prop t "completedAt")); cbn [bind toISOString] in H;
      [discriminate H|].
    destruct (strictEqStr (prop t "status") "Done");
      cbn [bind toISOString addMs] in H; discriminate H.
Qed.

Lemma mapIdx_ok (f : nat -> JsVal -> Result Task) (l : list JsVal) :
  forall (idx : nat) (out : list Task),
    mapIdx f idx l = Ok out ->
    List.length out = List.length l /\
    forall k t, nth_error l k = Some t ->
      exists x, nth_error out k = Some x /\ f (idx + k)%nat t = Ok x.
Proof.
  induction l as [|a l IH]; intros idx out H; simpl in H.
  - inversion H. split; [reflexivity|]. intros k t Hk.
    destruct k; discriminate Hk.
  - destruct (f idx a) as [x|e] eqn:Ea; cbn [bind] in H; [|discriminate H].
    destruct (mapIdx f (S idx) l) as [xs|e] eqn:El; cbn [bind] in H;
      [|discriminate H].
    inversion H; subst out. destruct (IH (S idx) xs El) as [IH1 IH2].
    split; [simpl; rewrite IH1; reflexivity|].
    intros k t Hk. destruct k as [|k]; simpl in Hk.
    + inversion Hk; subst t. exists x. rewrite Nat.add_0_r. split; [reflexivity|exact Ea].
    + destruct (IH2 k t Hk) as [y [Hy1 Hy2]]. exists y. split; [exact Hy1|].
      rewrite Nat.add_succ_r. exact Hy2.
Qed.

Lemma mapIdx_throws (f : nat -> JsVal -> Result Task) (before : list JsVal) :
  forall (idx : nat) (t : JsVal) (after : list JsVal),
    isOk (f (idx + List.length before)%nat t) = false ->
    isOk (mapIdx f idx (before ++ t :: after)) = false.
Proof.
  induction before as [|a l IH]; intros idx t after H; simpl in *.
  - rewrite Nat.add_0_r in H. destruct (f idx t); [discriminate H|reflexivity].
  - destruct (f idx a); [|reflexivity]. cbn [bind].
    rewrite Nat.add_succ_r in H. specialize (IH (S idx) t after H).
    destruct (mapIdx f (S idx) (l ++ t :: after)); [discriminate IH|reflexivity].
Qed.

Lemma normalizeTasks_ok (now : Z) (uuid : nat -> string) (l : list JsVal)
  (out : list Task) :
  normalizeTasks now uuid (JArr l) = Ok out ->
  List.length out = List.length l /\
  forall k x, nth_error out k = Some x ->
    exists t, nth_error l k = Some t /\
              normalizeOne now (uuid k) k t = Ok x.
Proof.
  unfold normalizeTasks. intros H.
  destruct (mapIdx_ok _ l 0%nat out H) as [Hlen Hnth].
  split; [exact Hlen|]. intros k x Hk.
  assert (Hlt : (k < List.length l)%nat).
  { rewrite <- Hlen. apply nth_error_Some. congruence. }
  destruct (nth_error l k) as [t|] eqn:Et;
    [|apply nth_error_None in Et; lia].
  exists t. split; [reflexivity|].
  destruct (Hnth k t Et) as [y [Hy1 Hy2]]. simpl in Hy2.
  rewrite Hk in Hy1. inversion Hy1; subst y. exact Hy2.
Qed.

(** A non-array is normalized as the empty array. *)
Lemma normalizeTasks_non_array (now : Z) (uuid : nat -> string) (v : JsVal) :
  (forall l, v <> JArr l) -> normalizeTasks now uuid v = Ok [].
Proof.
  intros H. destruct v; try reflexivity. exfalso. apply (H elems). reflexivity.
Qed.

(** The fields of every record that the normalizer returns. *)
Lemma normalizeTasks_fields (now : Z) (uuid : nat -> string) (l : list JsVal)
  (out : list Task) :
  normalizeTasks now uuid (JArr l) = Ok out ->
  forall x, In x out ->
    truthy (title x) = true /\ isFinite (revenue x) = true /\
    gt (timeTaken x) zero = true.
Proof.
  intros H x Hx. apply In_nth_error in Hx. destruct Hx as [k Hk].
  destruct (normalizeTasks_ok now uuid l out H) as [_ Hn].
  destruct (Hn k x Hk) as [t [_ Ht]].
  apply normalizeOne_ok in Ht. destruct Ht as [_ [t0 [_ ->]]]. simpl.
  split; [|split].
  - unfold or_else. destruct (truthy (prop t "title")) eqn:E;
      [exact E|reflexivity].
  - destruct (isFinite (ToNumber (prop t "revenue"))) eqn:E;
      [exact E|reflexivity].
  - apply coerce_positive.
Qed.

Lemma normalizeOne_succeeds (now : Z) (uuid : string) (idx : nat)
  (t : JsVal) (t0 : Z) :
  nullish t = false ->
  createdOf now idx t = Some t0 ->
  (truthy (prop t "completedAt") = false ->
   strictEqStr (prop t "status") "Done" = true ->
   Z.abs (t0 + 24 * 3600 * 1000) <= maxTime) ->
  exists x, normalizeOne now uuid idx t = Ok x.
Proof.
  intros Hn Hc Hday. unfold normalizeOne.
  rewrite !(getProp_prop t _ Hn). cbn [bind].
  fold (createdOf now idx t). rewrite Hc.
  destruct (truthy (prop t "completedAt")); cbn [bind toISOString];
    [eexists; reflexivity|].
  destruct (strictEqStr (prop t "status") "Done");
    cbn [bind]; [|eexists; reflexivity].
  unfold addMs, timeClipZ.
  specialize (Hday eq_refl eq_refl).
  destruct (Z.abs (t0 + 24 * 3600 * 1000) >? maxTime) eqn:E;
    [apply Z.gtb_lt in E; lia|].
  cbn [bind toISOString]. eexists; reflexivity.
Qed.

Lemma mapIdx_succeeds (f : nat -> JsVal -> Result Task) (l : list JsVal) :
  forall idx,
    (forall k t, nth_error l k = Some t ->
                 exists x, f (idx + k)%nat t = Ok x) ->
    exists out, mapIdx f idx l = Ok out.
Proof.
  induction l as [|a l IH]; intros idx H; simpl; [eexists; reflexivity|].
  destruct (H 0%nat a eq_refl) as [x Hx]. rewrite Nat.add_0_r in Hx.
  rewrite Hx. cbn [bind].
  destruct (IH (S idx)) as [out Hout].
  { intros k t Hk. specialize (H (S k) t Hk).
    rewrite Nat.add_succ_r in H. exact H. }
  rewrite Hout. cbn [bind]. eexists; reflexivity.
Qed.

(** Where the normalizer does return: on every array whose elements are
    neither [undefined] nor [null] and whose dates are valid and in range
    (and on every non-array, see [normalizeTasks_non_array]). *)
Lemma normalizeTasks_succeeds (now : Z) (uuid : nat -> string)
  (l : list JsVal) :
  (forall k t, nth_error l k = Some t ->
     nullish t = false /\
     exists t0, createdOf now k t = Some t0 /\
       (truthy (prop t "completedAt") = false ->
        strictEqStr (prop t "status") "Done" = true ->
        Z.abs (t0 + 24 * 3600 * 1000) <= maxTime)) ->
  exists out, normalizeTasks now uuid (JArr l) = Ok out.
Proof.
  intros H. unfold normalizeTasks. apply mapIdx_succeeds.
  intros k t Hk. destruct (H k t Hk) as [Hn [t0 [Hc Hd]]]. simpl.
  apply (normalizeOne_succeeds now (uuid k) k t t0); assumption.
Qed.

(** C6, the failure path. A record whose [createdAt] is truthy but does not
    denote a valid date makes [normalizeTasks] throw (a RangeError from
    [toISOString]) instead of returning tasks, wherever it stands in the
    array. *)
Theorem normalizeTasks_throws_on_invalid_createdAt :
  forall (now : Z) (uuid : nat -> string) (before after : list JsVal)
         (t : JsVal),
    truthy (prop t "createdAt") = true ->
    newDate (prop t "createdAt") = None ->
    isOk (normalizeTasks now uuid (JArr (before ++ t :: after))) = false.
Proof.
  intros now uuid before after t Htr Hinv. unfold normalizeTasks.
  apply mapIdx_throws. simpl.
  destruct (normalizeOne now (uuid (List.length before)) (List.length before) t)
    as [x|e] eqn:E; [|reflexivity].
  apply normalizeOne_ok in E. destruct E as [_ [t0 [Hc _]]].
  unfold createdOf in Hc. rewrite Htr, Hinv in Hc. discriminate Hc.
Qed.

(** The same on a single record, with the exception that is raised. *)
Lemma normalizeTasks_invalid_createdAt_error (now : Z) (uuid : nat -> string)
  (s : string) :
  s <> "" -> DateParse s = None ->
  normalizeTasks now uuid (JArr [JObj [("createdAt", JStr s)]])
  = Throw (RangeError "Invalid time value").
Proof.
  intros Hs Hp. apply String.eqb_neq in Hs.
  unfold normalizeTasks, normalizeOne; simpl. rewrite Hs. simpl.
  rewrite Hp. reflexivity.
Qed.

(** An element that is [null] makes it throw as well (a TypeError). *)
Lemma normalizeTasks_null_element (now : Z) (uuid : nat -> string) :
  isOk (normalizeTasks now uuid (JArr [JNull])) = false.
Proof. reflexivity. Qed.

(** ** The invariant on [timeTaken] *)

(** The [timeTaken] of an updated task: the merged value, repaired. *)
Lemma updateOne_timeTaken (nowIso i : string) (patch : Patch) (t : Task) :
  hasId i t = true ->
  timeTaken (updateOne nowIso i patch t)
  = (if le (over (p_timeTaken patch) (timeTaken t)) zero then one
     else over (p_timeTaken patch) (timeTaken t)).
Proof.
  intros H. unfold updateOne. rewrite H. simpl.
  destruct (negb (strictEqStr (status t) "Done")
            && strictEqStr (over (p_status patch) (status t)) "Done"
            && negb (truthy (over (p_completedAt patch) (completedAt t))));
    simpl;
    destruct (le (over (p_timeTaken patch) (timeTaken t)) zero); reflexivity.
Qed.

(** C7, the failing case. [addTask] with a [timeTaken] that is NaN stores the
    NaN: the test [task.timeTaken <= 0] is false on it, and the stored task
    does not satisfy [timeTaken > 0]. [updateTask] with such a patch does the
    same. *)
Theorem addTask_stores_NaN_timeTaken :
  forall (uuid nowIso : string) (task : NewTask) (st : State),
    isNaN (nt_timeTaken task) = true ->
    (exists t,
        tasks (addTask uuid nowIso task st) = tasks st ++ [t] /\
        isNaN (timeTaken t) = true /\ gt (timeTaken t) zero = false) /\
    (forall (i : string) (patch : Patch) (t : Task),
        hasId i t = true ->
        p_timeTaken patch = Some (nt_timeTaken task) ->
        gt (timeTaken (updateOne nowIso i patch t)) zero = false).
Proof.
  intros uuid nowIso task st H.
  destruct (nt_timeTaken task) eqn:E; try discriminate H. split.
  - exists (createTask uuid nowIso task). unfold addTask, setTasks; simpl.
    unfold createTask. rewrite E. simpl. repeat split.
  - intros i patch t Hid Hp.
    rewrite (updateOne_timeTaken nowIso i patch t Hid), Hp. reflexivity.
Qed.

Example addTask_NaN_stored :
  map timeTaken
    (tasks (addTask "uuid-1" "2024-05-01T10:00:00.000Z" nanTask (stateOf [])))
  = [NaN]
  /\ gt NaN zero = false /\ le NaN zero = false.
Proof. repeat split. Qed.

(** Apart from NaN the repairs of [addTask] and [updateTask] do keep
    [timeTaken] positive. *)
Lemma createTask_timeTaken_positive (uuid nowIso : string) (task : NewTask) :
  isNaN (nt_timeTaken task) = false ->
  gt (timeTaken (createTask uuid nowIso task)) zero = true.
Proof. intros H. unfold createTask; simpl. apply repair_positive, H. Qed.

Lemma updateOne_timeTaken_positive (nowIso i : string) (patch : Patch)
  (t : Task) :
  gt (timeTaken t) zero = true ->
  (forall v, p_timeTaken patch = Some v -> isNaN v = false) ->
  gt (timeTaken (updateOne nowIso i patch t)) zero = true.
Proof.
  intros Ht Hp. destruct (hasId i t) eqn:Hid;
    [|rewrite updateOne_other by exact Hid; exact Ht].
  rewrite (updateOne_timeTaken nowIso i patch t Hid).
  apply repair_positive.
  destruct (p_timeTaken patch) as [v|]; simpl; [apply Hp; reflexivity|].
  destruct (timeTaken t); try reflexivity. discriminate Ht.
Qed.

Lemma step_allPositive (op : Op) (st : State) :
  suppliesNoNaN op = true -> allPositive st -> allPositive (step op st).
Proof.
  intros Hop Hst. pose proof Hst as [Ht Hb].
  destruct op as [r|uuid nowIso task|nowIso i patch|token i|token|token];
    cbn [step suppliesNoNaN] in *.
  - destruct r as [finalData|e]; split; cbn; try assumption.
    rewrite forallb_forall in Hop. exact Hop.
  - split; [|exact Hb]. unfold addTask, setTasks; cbn [tasks].
    intros t Hin. apply in_app_or in Hin.
    destruct Hin as [Hin|[<-|[]]]; [apply Ht, Hin|].
    apply createTask_timeTaken_positive, negb_true_iff, Hop.
  - split; [|exact Hb]. unfold updateTask, setTasks; cbn [tasks].
    intros t Hin. apply in_map_iff in Hin. destruct Hin as [y [<- Hin]].
    apply updateOne_timeTaken_positive; [apply Ht, Hin|].
    intros v Hv. rewrite Hv in Hop. apply negb_true_iff, Hop.
  - split; unfold deleteTask; cbn [tasks lastDeleted].
    + intros t Hin. apply filter_In in Hin. apply Ht, Hin.
    + intros d Hd. apply find_some in Hd. apply Ht, Hd.
  - unfold undoDelete, undoDeleteFrom. destruct (lastDeleted st) as [d|] eqn:Ed; [|exact Hst].
    destruct (tokenMismatch token (lastDeletedToken st)); [exact Hst|].
    split; cbn; [|discriminate]. intros t Hin. apply in_app_or in Hin.
    destruct Hin as [Hin|[<-|[]]]; [apply Ht, Hin|apply Hb; reflexivity].
  - unfold clearLastDeleted, clearLastDeletedFrom.
    destruct (tokenMismatch token (lastDeletedToken st)); [exact Hst|].
    split; cbn; [exact Ht|discriminate].
Qed.

(** With no NaN supplied, every stored task has [timeTaken > 0] in every
    reachable state. *)
Lemma run_timeTaken_positive (ops : list Op) :
  forall st,
    forallb suppliesNoNaN ops = true -> allPositive st ->
    allPositive (run ops st).
Proof.
  induction ops as [|op ops IH]; intros st Hops Hst; [exact Hst|].
  simpl in Hops. apply andb_true_iff in Hops. destruct Hops as [Hop Hops].
  unfold run in *. simpl. apply IH; [exact Hops|].
  apply step_allPositive; assumption.
Qed.

(** ** Load coordinator *)

(** C8. When the request succeeds and normalization yields no record, the
    task list becomes the batch [generateSalesTasks 50]; when it yields at
    least one, the list is the normalized records. With a generator that
    returns as many records as asked, the list is never empty. *)
Theorem load_falls_back_on_empty :
  forall (now : Z) (uuid : nat -> string) (status : Z) (data : JsVal)
         (normalized : list Task) (st : State),
    normalizeTasks now uuid data = Ok normalized ->
    List.length (generateSalesTasks 50) = 50%nat ->
    let st' :=
      onSettled true (fetchTasks now uuid (Response true status (Ok data))) st
    in
    (normalized = [] -> tasks st' = generateSalesTasks 50) /\
    (normalized <> [] -> tasks st' = normalized) /\
    tasks st' <> [] /\ loading st' = false.
Proof.
  intros now uuid status data normalized st Hn Hgen st'.
  unfold st', fetchTasks. simpl. rewrite Hn. cbn [bind onSettled tasks loading].
  destruct normalized as [|x xs]; simpl.
  - repeat split; try congruence.
    intros E. rewrite E in Hgen. discriminate Hgen.
  - repeat split; congruence.
Qed.

Lemma trigger_joins (c : Loader) :
  tasksFetchPromise c <> None -> trigger c = c.
Proof.
  unfold trigger. destruct (tasksFetchPromise c); [reflexivity|congruence].
Qed.

Lemma runLoader_triggers_pending (n : nat) (c : Loader) :
  tasksFetchPromise c = Some Pending ->
  runLoader (repeat Trigger n) c = c.
Proof.
  intros H. induction n as [|n IH]; simpl; [reflexivity|].
  rewrite trigger_joins by congruence. exact IH.
Qed.

Lemma runLoader_requests_bound (evs : list LoadEvent) :
  forall c,
    (requests (runLoader evs c)
     <= requests c
        + (match tasksFetchPromise c with None => 1 | Some _ => 0 end)
        + List.length (filter isFailure evs))%nat.
Proof.
  induction evs as [|e evs IH]; intros c; simpl; [lia|].
  specialize (IH (loaderStep e c)).
  destruct e as [|r]; simpl in *.
  - unfold trigger in *.
    destruct (tasksFetchPromise c) eqn:E; simpl in *; rewrite ?E in *; lia.
  - unfold settle in *.
    destruct (tasksFetchPromise c) as [[|d]|] eqn:E; simpl in *;
      try destruct r; simpl in *; rewrite ?E in *; lia.
Qed.

(** C9. Any number of triggers before the load settles issue one request:
    the first creates the handle, each later one finds it and joins. A
    trigger starts a request exactly when the handle is empty, and a handle
    that exists is emptied only by a failure; so over any history the
    requests number at most one more than the failures. *)
Theorem single_request_while_pending :
  (forall n : nat,
      runLoader (repeat Trigger (S n)) initialLoader
      = mkLoader (Some Pending) 1) /\
  (forall c : Loader,
      requests (trigger c) = S (requests c) <-> tasksFetchPromise c = None) /\
  (forall (e : LoadEvent) (c : Loader),
      tasksFetchPromise c <> None ->
      tasksFetchPromise (loaderStep e c) = None -> isFailure e = true) /\
  (forall evs : list LoadEvent,
      (requests (runLoader evs initialLoader)
       <= 1 + List.length (filter isFailure evs))%nat).
Proof.
  split; [|split; [|split]].
  - intros n. simpl. apply runLoader_triggers_pending. reflexivity.
  - intros c. unfold trigger. destruct (tasksFetchPromise c); simpl; split;
      intros H; try reflexivity; try discriminate H. lia.
  - intros e c Hc H. destruct e as [|r]; simpl in *.
    + rewrite trigger_joins in H by exact Hc. contradiction.
    + unfold settle in H.
      destruct (tasksFetchPromise c) as [[|d]|] eqn:E; [|congruence..].
      destruct r; [discriminate H|reflexivity].
  - intros evs. pose proof (runLoader_requests_bound evs initialLoader) as H.
    simpl in H. lia.
Qed.

(** Three triggers, a failure, two more triggers: two requests. *)
Example retry_after_failure :
  requests
    (runLoader [Trigger; Trigger; Trigger;
                Settle (Throw (Error "Failed to load tasks.json"));
                Trigger; Trigger] initialLoader)
  = 2%nat.
Proof. reflexivity. Qed.

(** ** [completedAt] and the history of the status *)

Lemma find_map_task_of (p : Task -> bool) (l : list Tracked) :
  find p (map task_of l) = option_map task_of (find (fun x => p (task_of x)) l).
Proof.
  induction l as [|a l IH]; simpl; [reflexivity|].
  destruct (p (task_of a)); [reflexivity|exact IH].
Qed.

Lemma filter_map_task_of (p : Task -> bool) (l : list Tracked) :
  filter p (map task_of l) = map task_of (filter (fun x => p (task_of x)) l).
Proof.
  induction l as [|a l IH]; simpl; [reflexivity|].
  destruct (p (task_of a)); simpl; rewrite IH; reflexivity.
Qed.

(** Replaying an operation on tracked tasks and dropping the record is the
    operation of the hook. *)
Lemma hstep_forget (op : Op) (h : HState) :
  forget (hstep op h) = step op (forget h).
Proof.
  destruct op as [r|uuid nowIso task|nowIso i patch|token i|token|token];
    unfold forget; simpl.
  - destruct r; simpl; [|reflexivity].
    rewrite map_map. simpl. rewrite map_id. reflexivity.
  - unfold addTask, setTasks; simpl. rewrite map_app. reflexivity.
  - unfold updateTask, setTasks; simpl. rewrite !map_map. reflexivity.
  - unfold deleteTask; simpl.
    rewrite find_map_task_of.
    rewrite (filter_map_task_of (fun t => negb (hasId i t))). reflexivity.
  - unfold undoDelete, undoDeleteFrom; simpl.
    destruct (h_lastDeleted h) as [d|] eqn:Ed; simpl;
      [|rewrite Ed; reflexivity].
    destruct (tokenMismatch token (h_lastDeletedToken h)); simpl;
      [rewrite Ed; reflexivity|].
    unfold setBuffer, setTasks; simpl. rewrite map_app. reflexivity.
  - unfold clearLastDeleted, clearLastDeletedFrom; simpl.
    destruct (tokenMismatch token (h_lastDeletedToken h)); reflexivity.
Qed.

Lemma hrun_forget (ops : list Op) :
  forall h, forget (hrun ops h) = run ops (forget h).
Proof.
  induction ops as [|op ops IH]; intros h; simpl; [reflexivity|].
  unfold hrun, run in *. simpl. rewrite IH, hstep_forget. reflexivity.
Qed.

Lemma hstep_hrecorded (op : Op) (h : HState) :
  hrecorded h -> hrecorded (hstep op h).
Proof.
  intros Hh. pose proof Hh as [Ht Hb].
  destruct op as [r|uuid nowIso task|nowIso i patch|token i|token|token];
    cbn [hstep].
  - destruct r as [finalData|e]; [|split; [exact Ht|exact Hb]].
    split; [|exact Hb]. cbn [h_tasks].
    intros x Hx. apply in_map_iff in Hx. destruct Hx as [t [<- _]].
    intros H. exact H.
  - split; [|exact Hb]. cbn [h_tasks]. intros x Hx. apply in_app_or in Hx.
    destruct Hx as [Hx|[<-|[]]]; [apply Ht, Hx|]. intros H. exact H.
  - split; [|exact Hb]. cbn [h_tasks]. intros x Hx. apply in_map_iff in Hx.
    destruct Hx as [y [<- _]]. unfold recorded, retrack; simpl.
    intros H. rewrite H. apply orb_true_r.
  - split; cbn [h_tasks h_lastDeleted].
    + intros x Hx. apply filter_In in Hx. apply Ht, Hx.
    + intros d Hd. apply find_some in Hd. apply Ht, Hd.
  - destruct (h_lastDeleted h) as [d|] eqn:Ed; [|exact Hh].
    destruct (tokenMismatch token (h_lastDeletedToken h)); [exact Hh|].
    split; cbn [h_tasks h_lastDeleted]; [|discriminate].
    intros x Hx. apply in_app_or in Hx.
    destruct Hx as [Hx|[<-|[]]]; [apply Ht, Hx|apply Hb; reflexivity].
  - destruct (tokenMismatch token (h_lastDeletedToken h)); [exact Hh|].
    split; cbn [h_tasks h_lastDeleted]; [exact Ht|discriminate].
Qed.

(** Under any operations at all, a task of the list that is "Done" is
    recorded as having been "Done". *)
Lemma done_is_recorded (ops : list Op) :
  forall h, hrecorded h -> hrecorded (hrun ops h).
Proof.
  induction ops as [|op ops IH]; intros h Hh; [exact Hh|].
  unfold hrun in *. simpl. apply IH, hstep_hrecorded, Hh.
Qed.

Lemma consistent_present (x : Tracked) :
  consistent x -> present (completedAt (task_of x)) = everDone x.
Proof.
  intros [[H1 [H2 _]]|[H1 H2]]; rewrite H2.
  - rewrite H1. reflexivity.
  - destruct (completedAt (task_of x)); try reflexivity. discriminate H1.
Qed.

Lemma consistent_track (t : Task) :
  completedMatchesStatus t = true -> consistent (track t).
Proof.
  unfold completedMatchesStatus, consistent, track; simpl. intros H.
  apply andb_true_iff in H. destruct H as [H1 H2].
  apply Bool.eqb_prop in H1. apply Bool.eqb_prop in H2.
  destruct (isDone t).
  - right. split; [congruence|reflexivity].
  - left. repeat split. destruct (completedAt t); try reflexivity;
      discriminate H1.
Qed.

Lemma consistent_create (uuid nowIso : string) (task : NewTask) :
  nowIso <> "" -> consistent (track (createTask uuid nowIso task)).
Proof.
  intros H. apply String.eqb_neq in H.
  unfold consistent, track, createTask, isDone; simpl.
  destruct (strictEqStr (nt_status task) "Done"); simpl.
  - right. rewrite H. split; reflexivity.
  - left. repeat split.
Qed.

Lemma updateOne_fields (nowIso i : string) (patch : Patch) (t : Task) :
  hasId i t = true ->
  p_completedAt patch = None ->
  let t' := updateOne nowIso i patch t in
  status t' = over (p_status patch) (status t) /\
  completedAt t' =
    (if negb (isDone t)
        && strictEqStr (over (p_status patch) (status t)) "Done"
        && negb (truthy (completedAt t))
     then JStr nowIso else completedAt t).
Proof.
  intros H Hp. unfold updateOne, merge. rewrite H, Hp. simpl.
  unfold isDone.
  destruct (negb (strictEqStr (status t) "Done")
            && strictEqStr (over (p_status patch) (status t)) "Done"
            && negb (truthy (completedAt t))); simpl;
    destruct (le (over (p_timeTaken patch) (timeTaken t)) zero); simpl;
    split; reflexivity.
Qed.

Lemma consistent_update (nowIso i : string) (patch : Patch) (x : Tracked) :
  nowIso <> "" -> p_completedAt patch = None ->
  consistent x -> consistent (retrack (updateOne nowIso i patch) x).
Proof.
  intros Hnow Hp Hx. apply String.eqb_neq in Hnow.
  unfold consistent, retrack; simpl.
  destruct (hasId i (task_of x)) eqn:Hid.
  - destruct (updateOne_fields nowIso i patch (task_of x) Hid Hp) as [Hs Hc].
    assert (Hd : isDone (updateOne nowIso i patch (task_of x))
                 = strictEqStr (over (p_status patch) (status (task_of x)))
                               "Done").
    { unfold isDone. rewrite Hs. reflexivity. }
    rewrite Hd, Hc.
    destruct Hx as [[H1 [H2 H3]]|[H1 H2]].
    + rewrite H1, H2, H3. simpl.
      destruct (strictEqStr (over (p_status patch) (status (task_of x))) "Done");
        simpl.
      * right. rewrite Hnow. split; reflexivity.
      * left. repeat split.
    + rewrite H1, H2. simpl. rewrite andb_false_r. simpl.
      right. split; [exact H1|reflexivity].
  - rewrite updateOne_other by exact Hid.
    destruct Hx as [[H1 [H2 H3]]|[H1 H2]].
    + left. rewrite H2, H3. repeat split. exact H1.
    + right. rewrite H2. split; [exact H1|reflexivity].
Qed.

Lemma hstep_hinv (op : Op) (h : HState) :
  keepsCompletedAt op = true -> hinv h -> hinv (hstep op h).
Proof.
  intros Hop Hh. pose proof Hh as [Ht Hb].
  destruct op as [r|uuid nowIso task|nowIso i patch|token i|token|token];
    cbn [hstep keepsCompletedAt] in *.
  - destruct r as [finalData|e]; [|split; [exact Ht|exact Hb]].
    split; [|exact Hb]. cbn [h_tasks].
    intros x Hx. apply in_map_iff in Hx. destruct Hx as [t [<- Hin]].
    apply consistent_track.
    rewrite forallb_forall in Hop. apply Hop, Hin.
  - split; [|exact Hb]. cbn [h_tasks]. intros x Hx. apply in_app_or in Hx.
    destruct Hx as [Hx|[<-|[]]]; [apply Ht, Hx|].
    apply consistent_create. apply negb_true_iff, String.eqb_neq in Hop.
    exact Hop.
  - apply andb_true_iff in Hop. destruct Hop as [Hnow Hp].
    apply negb_true_iff, String.eqb_neq in Hnow.
    destruct (p_completedAt patch) eqn:Ep; [discriminate Hp|].
    split; [|exact Hb]. cbn [h_tasks]. intros x Hx. apply in_map_iff in Hx.
    destruct Hx as [y [<- Hin]]. apply consistent_update; auto.
  - split; cbn [h_tasks h_lastDeleted].
    + intros x Hx. apply filter_In in Hx. apply Ht, Hx.
    + intros d Hd. apply find_some in Hd. apply Ht, Hd.
  - destruct (h_lastDeleted h) as [d|] eqn:Ed; [|exact Hh].
    destruct (tokenMismatch token (h_lastDeletedToken h)); [exact Hh|].
    split; cbn [h_tasks h_lastDeleted]; [|discriminate].
    intros x Hx. apply in_app_or in Hx.
    destruct Hx as [Hx|[<-|[]]]; [apply Ht, Hx|apply Hb; reflexivity].
  - destruct (tokenMismatch token (h_lastDeletedToken h)); [exact Hh|].
    split; cbn [h_tasks h_lastDeleted]; [exact Ht|discriminate].
Qed.

Lemma hrun_hinv (ops : list Op) :
  forall h, forallb keepsCompletedAt ops = true -> hinv h -> hinv (hrun ops h).
Proof.
  induction ops as [|op ops IH]; intros h Hops Hh; simpl; [exact Hh|].
  simpl in Hops. apply andb_true_iff in Hops. destruct Hops as [Hop Hops].
  apply (IH (hstep op h) Hops). apply hstep_hinv; assumption.
Qed.

(** C2 (as amended). From the initial state, under operations in which an
    update carries no [completedAt] key and a load delivers tasks whose
    [completedAt] matches their status (timestamps being non-empty), every
    task of the list has [completedAt] present exactly when its status has
    been "Done" at some point since it entered the state. *)
Theorem completedAt_iff_ever_done :
  forall ops : list Op,
    forallb keepsCompletedAt ops = true ->
    map task_of (h_tasks (hrun ops h_initial)) = tasks (run ops initialState)
    /\ forall x, In x (h_tasks (hrun ops h_initial)) ->
         present (completedAt (task_of x)) = everDone x.
Proof.
  intros ops Hops. split.
  - change (tasks (forget (hrun ops h_initial)) = tasks (run ops initialState)).
    rewrite hrun_forget. reflexivity.
  - intros x Hx. apply consistent_present.
    assert (Hi : hinv h_initial).
    { split; simpl; [intros y []|discriminate]. }
    destruct (hrun_hinv ops h_initial Hops Hi) as [Ht _]. apply Ht, Hx.
Qed.

Lemma completedAt_iff_ever_done_witness :
  map task_of (h_tasks (hrun sampleOps h_initial))
  = tasks (run sampleOps initialState)
  /\ forall x, In x (h_tasks (hrun sampleOps h_initial)) ->
       present (completedAt (task_of x)) = everDone x.
Proof.
  apply (completedAt_iff_ever_done sampleOps). reflexivity.
Defined.

(** C2, the statement of the specification refuted: after [addTask] of a
    "Todo" task and an update whose patch carries a [completedAt], the task
    of the list has [completedAt] present although its status never was
    "Done". *)
Lemma completedAt_present_without_done :
  map task_of (h_tasks (hrun stampingOps h_initial))
  = tasks (run stampingOps initialState)
  /\ map (fun t => (status t, completedAt t)) (tasks (run stampingOps initialState))
     = [(JStr "Todo", JStr "2024-04-30T08:00:00.000Z")]
  /\ ~ (forall x, In x (h_tasks (hrun stampingOps h_initial)) ->
          present (completedAt (task_of x)) = everDone x).
Proof.
  split; [reflexivity|]. split; [reflexivity|].
  intros H.
  specialize (H (mkTracked
                   (mkTask (JStr "t-9") (JStr "Demo") zero one (JStr "Low")
                           (JStr "Todo") (JStr "")
                           "2024-05-01T10:00:00.000Z"
                           (JStr "2024-04-30T08:00:00.000Z")) false)).
  simpl in H. discriminate H. left. reflexivity.
Qed.

(** The other direction fails as well: a patch that writes [undefined] into
    [completedAt] removes it from a task that is "Done". *)
Example completedAt_removed_while_done :
  map (fun t => (status t, completedAt t))
    (tasks (updateTask "2024-05-03T10:00:00.000Z" "t-1"
              (mkPatch None None None None None None None None (Some JUndef))
              (stateOf [sampleTask "t-1" "Done"
                          (JStr "2024-05-01T10:00:00.000Z")])))
  = [(JStr "Done", JUndef)].
Proof. reflexivity. Qed.

Lemma truthy_present (v : JsVal) : truthy v = true -> present v = true.
Proof. destruct v; simpl; congruence. Qed.

Lemma or_else_todo_done (v : JsVal) :
  strictEqStr (or_else v (JStr "Todo")) "Done" = strictEqStr v "Done".
Proof.
  unfold or_else. destruct (truthy v) eqn:E; [reflexivity|].
  destruct v; try reflexivity. simpl in *.
  apply negb_false_iff, String.eqb_eq in E. subst s. reflexivity.
Qed.

(** The normalizer delivers tasks whose [completedAt] matches their status
    when the raw records carry a [completedAt] only together with the status
    "Done". *)
Lemma normalizeTasks_completedMatchesStatus (now : Z) (uuid : nat -> string)
  (l : list JsVal) (out : list Task) :
  (forall t, isoString t <> "") ->
  forallb rawCompletedOnlyIfDone l = true ->
  normalizeTasks now uuid (JArr l) = Ok out ->
  forallb completedMatchesStatus out = true.
Proof.
  intros Hiso Hraw Hn. apply forallb_forall. intros x Hx.
  apply In_nth_error in Hx. destruct Hx as [k Hk].
  destruct (normalizeTasks_ok now uuid l out Hn) as [_ Hnth].
  destruct (Hnth k x Hk) as [t [Ht Hone]].
  rewrite forallb_forall in Hraw.
  specialize (Hraw t (nth_error_In _ _ Ht)).
  apply normalizeOne_ok in Hone. destruct Hone as [Hnn [t0 [_ ->]]].
  unfold rawCompletedOnlyIfDone in Hraw.
  rewrite !(getProp_prop t _ Hnn) in Hraw.
  unfold completedMatchesStatus, isDone; simpl.
  rewrite or_else_todo_done.
  destruct (truthy (prop t "completedAt")) eqn:Ec; simpl in Hraw.
  - rewrite Hraw, Ec, (truthy_present _ Ec). reflexivity.
  - destruct (strictEqStr (prop t "status") "Done"); simpl; [|reflexivity].
    match goal with
    | |- context [String.eqb (isoString ?z) ""] =>
        rewrite (proj2 (String.eqb_neq _ _) (Hiso z))
    end. reflexivity.
Qed.

(* ================================================================= *)
(** * Further properties of the hook *)

(** ** Delete, undo and clear composed *)

Lemma filter_out_unique {A} (p : A -> bool) (before after : list A) (x : A) :
  (forall y, In y before -> p y = false) ->
  (forall y, In y after -> p y = false) ->
  p x = true ->
  filter (fun y => negb (p y)) (before ++ x :: after) = before ++ after.
Proof.
  intros Hb Ha Hx. rewrite filter_app. simpl. rewrite Hx. simpl.
  destruct (find_none_filter_id p before Hb) as [_ ->].
  destruct (find_none_filter_id p after Ha) as [_ ->]. reflexivity.
Qed.

Lemma filter_length_split {A} (p : A -> bool) (l : list A) :
  (List.length (filter p l)
   + List.length (filter (fun y => negb (p y)) l))%nat = List.length l.
Proof.
  induction l as [|a l IH]; simpl; [reflexivity|].
  destruct (p a); simpl; lia.
Qed.

Lemma tokenMismatch_own (token : option string) (tok : string) :
  token = None \/ token = Some tok ->
  tokenMismatch token (Some tok) = false.
Proof.
  intros [->| ->]; simpl; [reflexivity|].
  rewrite String.eqb_refl. apply andb_false_r.
Qed.

(** Delete, clear, undo, on the states of the successive renders. *)
Lemma clear_then_undo_steps :
  forall (st : State) (i tok : string) (token token' : option string),
    token = None \/ token = Some tok ->
    undoDelete token' (clearLastDeleted token (deleteTask tok i st))
    = clearLastDeleted token (deleteTask tok i st) /\
    lastDeleted (clearLastDeleted token (deleteTask tok i st)) = None /\
    forall t,
      In t (tasks (undoDelete token'
                     (clearLastDeleted token (deleteTask tok i st)))) ->
      hasId i t = false.
Proof.
  intros st i tok token token' Htok.
  assert (Hc : clearLastDeleted token (deleteTask tok i st)
               = setBuffer None None (deleteTask tok i st)).
  { unfold clearLastDeleted, clearLastDeletedFrom. cbn [deleteTask lastDeletedToken].
    rewrite (tokenMismatch_own token tok Htok). reflexivity. }
  rewrite Hc. split; [reflexivity|]. split; [reflexivity|].
  intros t Ht. cbn in Ht. apply filter_In in Ht. destruct Ht as [_ Ht].
  apply negb_true_iff in Ht. exact Ht.
Qed.

(** Two deletes, a clear with the token of the first and an undo, on the
    states of the successive renders. *)
Lemma stale_clear_steps :
  forall (st : State) (ia ib tokA tokB : string) (b : Task),
    tokA <> "" -> tokA <> tokB ->
    find (hasId ib) (tasks (deleteTask tokA ia st)) = Some b ->
    clearLastDeleted (Some tokA)
      (deleteTask tokB ib (deleteTask tokA ia st))
    = deleteTask tokB ib (deleteTask tokA ia st) /\
    tasks (undoDelete (Some tokB)
             (clearLastDeleted (Some tokA)
                (deleteTask tokB ib (deleteTask tokA ia st))))
    = tasks (deleteTask tokB ib (deleteTask tokA ia st)) ++ [b].
Proof.
  intros st ia ib tokA tokB b Hne Hdiff Hb.
  assert (Hc : clearLastDeleted (Some tokA)
                 (deleteTask tokB ib (deleteTask tokA ia st))
               = deleteTask tokB ib (deleteTask tokA ia st)).
  { unfold clearLastDeleted, clearLastDeletedFrom. cbn [deleteTask lastDeletedToken].
    rewrite (tokenMismatch_stale tokA tokB Hne Hdiff). reflexivity. }
  rewrite Hc. split; [reflexivity|].
  unfold undoDelete, undoDeleteFrom. cbn [deleteTask lastDeleted lastDeletedToken tasks].
  cbn [deleteTask tasks] in Hb. rewrite Hb.
  rewrite (tokenMismatch_own (Some tokB) tokB (or_intror eq_refl)).
  reflexivity.
Qed.

(** Delete and undo of an id that one task has, on the states of the
    successive renders. *)
Lemma delete_undo_unique_steps :
  forall (st : State) (before after : list Task) (t : Task)
         (i tok : string) (token : option string),
    tasks st = before ++ t :: after ->
    (forall y, In y before -> hasId i y = false) ->
    (forall y, In y after -> hasId i y = false) ->
    hasId i t = true ->
    token = None \/ token = Some tok ->
    tasks (undoDelete token (deleteTask tok i st)) = before ++ after ++ [t] /\
    Permutation (tasks (undoDelete token (deleteTask tok i st))) (tasks st) /\
    lastDeleted (undoDelete token (deleteTask tok i st)) = None /\
    lastDeletedToken (undoDelete token (deleteTask tok i st)) = None.
Proof.
  intros st before after t i tok token Hl Hb Ha Ht Htok.
  unfold undoDelete, undoDeleteFrom. cbn [deleteTask lastDeleted lastDeletedToken].
  rewrite Hl, (find_first (hasId i) before after t Hb Ht).
  rewrite (tokenMismatch_own token tok Htok).
  cbn [setBuffer setTasks tasks lastDeleted lastDeletedToken].
  unfold deleteTask. cbn [tasks]. rewrite ?Hl.
  rewrite (filter_out_unique (hasId i) before after t Hb Ha Ht).
  rewrite <- app_assoc. repeat split.
  apply Permutation_app_head, Permutation_sym, Permutation_cons_append.
Qed.

(** Delete and undo of an id that occurs, on the states of the successive
    renders. *)
Lemma delete_undo_duplicates_steps :
  forall (st : State) (i tok : string) (d : Task),
    find (hasId i) (tasks st) = Some d ->
    tasks (undoDelete None (deleteTask tok i st))
    = filter (fun t => negb (hasId i t)) (tasks st) ++ [d] /\
    (List.length (tasks (undoDelete None (deleteTask tok i st)))
     + List.length (filter (hasId i) (tasks st)))%nat
    = S (List.length (tasks st)).
Proof.
  intros st i tok d Hd.
  unfold undoDelete, undoDeleteFrom. cbn [deleteTask lastDeleted lastDeletedToken].
  rewrite Hd. cbn. split; [reflexivity|].
  rewrite length_app. simpl.
  pose proof (filter_length_split (hasId i) (tasks st)). lia.
Qed.

(** Two deletes of one id, on the states of the successive renders. *)
Lemma double_delete_steps :
  forall (st : State) (i tok1 tok2 : string) (token : option string),
    tasks (deleteTask tok2 i (deleteTask tok1 i st))
    = tasks (deleteTask tok1 i st) /\
    lastDeleted (deleteTask tok2 i (deleteTask tok1 i st)) = None /\
    undoDelete token (deleteTask tok2 i (deleteTask tok1 i st))
    = deleteTask tok2 i (deleteTask tok1 i st).
Proof.
  intros st i tok1 tok2 token.
  assert (H : forall t, In t (tasks (deleteTask tok1 i st)) ->
                        hasId i t = false).
  { intros t Ht. cbn in Ht. apply filter_In in Ht.
    apply negb_true_iff, Ht. }
  destruct (find_none_filter_id (hasId i) _ H) as [H1 H2].
  assert (Hb : lastDeleted (deleteTask tok2 i (deleteTask tok1 i st)) = None).
  { unfold deleteTask at 1. cbn [lastDeleted]. exact H1. }
  split; [|split; [exact Hb|]].
  - unfold deleteTask at 1. cbn [tasks]. exact H2.
  - unfold undoDelete, undoDeleteFrom. rewrite Hb. reflexivity.
Qed.

Lemma step_gone (i : string) (op : Op) (st : State) :
  onlyUndoClear op = true -> gone i st -> gone i (step op st).
Proof.
  intros Hop Hst. pose proof Hst as [Ht Hb].
  destruct op as [r|uuid nowIso task|nowIso j patch|token j|token|token];
    try discriminate Hop; cbn [step].
  - unfold undoDelete, undoDeleteFrom. destruct (lastDeleted st) as [d|] eqn:Ed; [|exact Hst].
    destruct (tokenMismatch token (lastDeletedToken st)); [exact Hst|].
    split; cbn; [|discriminate]. intros t Hin. apply in_app_or in Hin.
    destruct Hin as [Hin|[<-|[]]]; [apply Ht, Hin|apply Hb; reflexivity].
  - unfold clearLastDeleted, clearLastDeletedFrom.
    destruct (tokenMismatch token (lastDeletedToken st)); [exact Hst|].
    split; cbn; [exact Ht|discriminate].
Qed.

Lemma run_gone (i : string) (ops : list Op) :
  forall st, forallb onlyUndoClear ops = true -> gone i st ->
             gone i (run ops st).
Proof.
  induction ops as [|op ops IH]; intros st Hops Hst; [exact Hst|].
  simpl in Hops. apply andb_true_iff in Hops. destruct Hops as [Hop Hops].
  unfold run in *. simpl. apply IH; [exact Hops|].
  apply step_gone; assumption.
Qed.

(** Two deletes followed by undos and clears, each from the render of the
    state it acts on. *)
Lemma earlier_delete_steps :
  forall (st : State) (ia ib tokA tokB : string) (ops : list Op),
    forallb onlyUndoClear ops = true ->
    forall t,
      In t (tasks (run ops (deleteTask tokB ib (deleteTask tokA ia st)))) ->
      hasId ia t = false.
Proof.
  intros st ia ib tokA tokB ops Hops.
  assert (Hg : gone ia (deleteTask tokB ib (deleteTask tokA ia st))).
  { split.
    - intros t Ht. cbn in Ht. apply filter_In in Ht. destruct Ht as [Ht _].
      apply filter_In in Ht. apply negb_true_iff, Ht.
    - intros d Hd. cbn in Hd. apply find_some in Hd. destruct Hd as [Hd _].
      apply filter_In in Hd. apply negb_true_iff, Hd. }
  destruct (run_gone ia ops _ Hops Hg) as [Ht _]. exact Ht.
Qed.

Lemma step_buffered_has_token (op : Op) (st : State) :
  buffered_has_token st -> buffered_has_token (step op st).
Proof.
  unfold buffered_has_token. intros Hst.
  destruct op as [r|uuid nowIso task|nowIso j patch|token j|token|token];
    cbn [step].
  - destruct r; exact Hst.
  - exact Hst.
  - exact Hst.
  - cbn. discriminate.
  - unfold undoDelete, undoDeleteFrom. destruct (lastDeleted st) as [d|] eqn:Ed;
      [|rewrite Ed; exact Hst].
    destruct (tokenMismatch token (lastDeletedToken st));
      [rewrite Ed; exact Hst|]. cbn. congruence.
  - unfold clearLastDeleted, clearLastDeletedFrom.
    destruct (tokenMismatch token (lastDeletedToken st)); [exact Hst|].
    cbn. congruence.
Qed.

Lemma run_buffered_has_token (ops : list Op) :
  forall st, buffered_has_token st -> buffered_has_token (run ops st).
Proof.
  induction ops as [|op ops IH]; intros st Hst; [exact Hst|].
  unfold run in *. simpl. apply IH, step_buffered_has_token, Hst.
Qed.

(** X7. In every state reached from the initial one, by any operations, a
    buffered task comes with a token. *)
Theorem buffered_task_has_token :
  forall (ops : list Op) (d : Task),
    lastDeleted (run ops initialState) = Some d ->
    exists tok, lastDeletedToken (run ops initialState) = Some tok.
Proof.
  intros ops d Hd.
  assert (H : buffered_has_token (run ops initialState)).
  { apply run_buffered_has_token. intros H. exfalso. apply H. reflexivity. }
  destruct (lastDeletedToken (run ops initialState)) as [tok|] eqn:E;
    [exists tok; reflexivity|].
  exfalso. apply H; [congruence|exact E].
Qed.

(** ** Create and update *)

(** Add, delete of the new id and undo, on the states of the successive
    renders. *)
Lemma add_delete_steps :
  forall (st : State) (uuid nowIso tok : string) (task : NewTask),
    nullish (nt_id task) = true ->
    (forall t, In t (tasks st) -> hasId uuid t = false) ->
    tasks (deleteTask tok uuid (addTask uuid nowIso task st)) = tasks st /\
    lastDeleted (deleteTask tok uuid (addTask uuid nowIso task st))
    = Some (createTask uuid nowIso task) /\
    tasks (undoDelete None
             (deleteTask tok uuid (addTask uuid nowIso task st)))
    = tasks (addTask uuid nowIso task st).
Proof.
  intros st uuid nowIso tok task Hn Hfresh.
  assert (Hid : hasId uuid (createTask uuid nowIso task) = true).
  { unfold hasId, createTask, coalesce; simpl. rewrite Hn. simpl.
    apply String.eqb_refl. }
  assert (Hnone : forall y : Task, In y [] -> hasId uuid y = false)
    by (intros y []).
  assert (Hf : filter (fun t => negb (hasId uuid t))
                 (tasks st ++ [createTask uuid nowIso task]) = tasks st).
  { rewrite (filter_out_unique (hasId uuid) (tasks st) [] _ Hfresh Hnone Hid).
    apply app_nil_r. }
  assert (Hd : find (hasId uuid) (tasks st ++ [createTask uuid nowIso task])
               = Some (createTask uuid nowIso task))
    by (apply find_first; assumption).
  unfold undoDelete, undoDeleteFrom, deleteTask, addTask, setTasks.
  cbn [tasks lastDeleted lastDeletedToken]. rewrite Hf, Hd.
  cbn. repeat split.
Qed.

Lemma over_over {A} (p : option A) (x : A) : over p (over p x) = over p x.
Proof. destruct p; reflexivity. Qed.

Lemma repair_repair (x : number) : repair (repair x) = repair x.
Proof.
  unfold repair. destruct (le x zero) eqn:E; [reflexivity|].
  rewrite E. reflexivity.
Qed.

(** The task that [updateTask] writes in place of a task with the id. *)
Lemma updateOne_hit (nowIso i : string) (p : Patch) (t : Task) :
  hasId i t = true ->
  updateOne nowIso i p t
  = mkTask (over (p_id p) (id t)) (over (p_title p) (title t))
           (over (p_revenue p) (revenue t))
           (repair (over (p_timeTaken p) (timeTaken t)))
           (over (p_priority p) (priority t)) (over (p_status p) (status t))
           (over (p_notes p) (notes t)) (over (p_createdAt p) (createdAt t))
           (if negb (isDone t)
               && strictEqStr (over (p_status p) (status t)) "Done"
               && negb (truthy (over (p_completedAt p) (completedAt t)))
            then JStr nowIso
            else over (p_completedAt p) (completedAt t)).
Proof.
  intros H. unfold updateOne. rewrite H. simpl. unfold isDone, repair.
  destruct (negb (strictEqStr (status t) "Done")
            && strictEqStr (over (p_status p) (status t)) "Done"
            && negb (truthy (over (p_completedAt p) (completedAt t))));
    simpl;
    destruct (le (over (p_timeTaken p) (timeTaken t)) zero); reflexivity.
Qed.

Lemma updateOne_twice (now1 now2 i : string) (p : Patch) (t : Task) :
  p_completedAt p = None ->
  updateOne now2 i p (updateOne now1 i p t) = updateOne now1 i p t.
Proof.
  intros Hp. destruct (hasId i t) eqn:Hid;
    [|rewrite (updateOne_other now1 i p t Hid);
      apply updateOne_other; exact Hid].
  destruct (hasId i (updateOne now1 i p t)) eqn:Hid1;
    [|apply updateOne_other; exact Hid1].
  rewrite (updateOne_hit now2 i p _ Hid1).
  rewrite (updateOne_hit now1 i p t Hid). unfold isDone. simpl.
  rewrite Hp. simpl. rewrite !over_over.
  f_equal.
  - destruct (p_timeTaken p) as [v|]; simpl; [reflexivity|].
    apply repair_repair.
  - destruct (strictEqStr (over (p_status p) (status t)) "Done");
      reflexivity.
Qed.

(** X9. [updateTask] with an id that no task has changes nothing at all. *)
Theorem updateTask_missing_id_is_noop :
  forall (st : State) (nowIso i : string) (patch : Patch),
    (forall t, In t (tasks st) -> hasId i t = false) ->
    updateTask nowIso i patch st = st.
Proof.
  intros [l ld e d tok] nowIso i patch H. unfold updateTask, setTasks.
  simpl in *. f_equal.
  rewrite <- (map_id l) at 2. apply map_ext_in.
  intros t Ht. apply updateOne_other, H, Ht.
Qed.

(** X10. [updateTask] keeps the number of tasks, every task with another id at
    its index, and the deletion buffer. *)
Theorem updateTask_keeps_the_rest :
  forall (st : State) (nowIso i : string) (patch : Patch),
    List.length (tasks (updateTask nowIso i patch st))
    = List.length (tasks st) /\
    (forall n t, nth_error (tasks st) n = Some t -> hasId i t = false ->
                 nth_error (tasks (updateTask nowIso i patch st)) n = Some t) /\
    lastDeleted (updateTask nowIso i patch st) = lastDeleted st /\
    lastDeletedToken (updateTask nowIso i patch st) = lastDeletedToken st.
Proof.
  intros st nowIso i patch. unfold updateTask, setTasks; cbn.
  split; [apply length_map|]. split; [|split; reflexivity].
  intros n t Hn Hid. rewrite nth_error_map, Hn. simpl.
  rewrite updateOne_other by exact Hid. reflexivity.
Qed.

(** X11. Applying the same update a second time, at any later time, changes
    nothing, for every patch that carries no [completedAt] key. *)
Theorem updateTask_idempotent :
  forall (st : State) (now1 now2 i : string) (patch : Patch),
    p_completedAt patch = None ->
    updateTask now2 i patch (updateTask now1 i patch st)
    = updateTask now1 i patch st.
Proof.
  intros [l ld e d tok] now1 now2 i patch Hp. unfold updateTask, setTasks.
  simpl. f_equal. rewrite map_map. apply map_ext.
  intros t. apply updateOne_twice, Hp.
Qed.

(** ** [timeTaken] over histories *)

(** X13. From the initial state, with every call in an event of its own:
    as long as loads deliver tasks with [timeTaken > 0], [addTask] is given
    a [timeTaken] other than NaN and every patch of [updateTask] either has
    no [timeTaken] key or carries a number other than NaN, every task of
    the list has [timeTaken > 0]. *)
Theorem timeTaken_stays_positive :
  forall ops : list Op,
    forallb suppliesNoNaN ops = true ->
    forall t, In t (tasks (run ops initialState)) ->
              gt (timeTaken t) zero = true.
Proof.
  intros ops Hops.
  assert (Hi : allPositive initialState).
  { split; [intros t []|discriminate]. }
  destruct (run_timeTaken_positive ops initialState Hops Hi) as [Ht _].
  exact Ht.
Qed.

(** ** Metrics *)

Lemma add_NaN_r (x : number) : add x NaN = NaN.
Proof. destruct x; reflexivity. Qed.

Lemma sum_from_NaN (l : list Task) :
  fold_left (fun s t => add s (timeTaken t)) l NaN = NaN.
Proof. induction l as [|a l IH]; simpl; [reflexivity|exact IH]. Qed.

Lemma sum_with_NaN (l : list Task) (t : Task) :
  In t l -> isNaN (timeTaken t) = true ->
  forall acc, fold_left (fun s t => add s (timeTaken t)) l acc = NaN.
Proof.
  intros Hin Hn. induction l as [|a l IH]; intros acc; [destruct Hin|].
  simpl. destruct Hin as [->|Hin]; [|apply IH, Hin].
  destruct (timeTaken t); try discriminate Hn.
  rewrite add_NaN_r. apply sum_from_NaN.
Qed.

(** X14. One task whose [timeTaken] is NaN makes the total time of the metrics
    NaN, whatever the other tasks are. *)
Theorem metrics_total_time_NaN :
  forall (l : list Task) (t : Task),
    In t l -> isNaN (timeTaken t) = true ->
    totalTimeTaken (metrics l) = NaN.
Proof.
  intros l t Hin Hn. unfold metrics.
  destruct l as [|a l]; [destruct Hin|]. cbn [List.length Nat.eqb].
  cbn [totalTimeTaken]. unfold sumTimeTaken.
  apply (sum_with_NaN (a :: l) t Hin Hn).
Qed.

(** ** Load coordinator *)

Lemma runLoader_fulfilled (evs : list LoadEvent) (data : list Task) (n : nat) :
  runLoader evs (mkLoader (Some (Fulfilled data)) n)
  = mkLoader (Some (Fulfilled data)) n.
Proof.
  induction evs as [|e evs IH]; [reflexivity|].
  unfold runLoader in *. simpl. destruct e; exact IH.
Qed.

(** X15. A load that succeeded is final: whatever triggers and settlements
    follow, the handle keeps its data and no further request is made. After
    a failure of the pending request, any number of triggers makes exactly
    one new request. *)
Theorem load_handle_lifecycle :
  (forall (evs1 evs2 : list LoadEvent) (data : list Task),
      tasksFetchPromise (runLoader evs1 initialLoader)
      = Some (Fulfilled data) ->
      runLoader (evs1 ++ evs2) initialLoader = runLoader evs1 initialLoader) /\
  (forall (c : Loader) (e : Exn) (n : nat),
      tasksFetchPromise c = Some Pending ->
      runLoader (Settle (Throw e) :: repeat Trigger (S n)) c
      = mkLoader (Some Pending) (S (requests c))).
Proof.
  split.
  - intros evs1 evs2 data H. unfold runLoader at 1. rewrite fold_left_app.
    fold (runLoader evs1 initialLoader).
    destruct (runLoader evs1 initialLoader) as [h n]. simpl in H. subst h.
    apply runLoader_fulfilled.
  - intros c e n H. unfold runLoader. simpl. unfold settle. rewrite H.
    simpl. apply runLoader_triggers_pending. reflexivity.
Qed.

(** X16. A response that is [ok] but whose body is not an array, or is the empty
    array, loads the generated batch: no error is raised for a body of the
    wrong shape. *)
Theorem load_of_non_array_falls_back :
  forall (now : Z) (uuid : nat -> string) (status : Z) (v : JsVal),
    (forall a l, v <> JArr (a :: l)) ->
    fetchTasks now uuid (Response true status (Ok v))
    = Ok (generateSalesTasks 50).
Proof.
  intros now uuid status v H. unfold fetchTasks. cbn [negb bind].
  assert (Hn : normalizeTasks now uuid v = Ok []).
  { destruct v; try reflexivity. destruct elems as [|a l]; [reflexivity|].
    exfalso. apply (H a l). reflexivity. }
  rewrite Hn. reflexivity.
Qed.

(** X17. One element that is [null] or [undefined], anywhere in the array, fails
    the whole load: the consumer keeps its tasks, stops loading and gets an
    error message. *)
Theorem null_element_fails_the_load :
  forall (now : Z) (uuid : nat -> string) (status : Z)
         (before after : list JsVal) (t : JsVal) (st : State),
    nullish t = true ->
    isOk (fetchTasks now uuid
            (Response true status (Ok (JArr (before ++ t :: after)))))
    = false /\
    tasks (onSettled true
             (fetchTasks now uuid
                (Response true status (Ok (JArr (before ++ t :: after)))))
             st) = tasks st /\
    loading (onSettled true
               (fetchTasks now uuid
                  (Response true status (Ok (JArr (before ++ t :: after)))))
               st) = false /\
    error (onSettled true
             (fetchTasks now uuid
                (Response true status (Ok (JArr (before ++ t :: after)))))
             st) <> None.
Proof.
  intros now uuid status before after t st Hn.
  assert (H : isOk (normalizeTasks now uuid (JArr (before ++ t :: after)))
              = false).
  { unfold normalizeTasks. apply mapIdx_throws.
    destruct t; try discriminate Hn; reflexivity. }
  unfold fetchTasks. cbn [negb bind].
  destruct (normalizeTasks now uuid (JArr (before ++ t :: after)));
    [discriminate H|].
  cbn. repeat split. discriminate.
Qed.

(** ** Normalizer *)

(** X18. When the normalizer returns, it returns one task per element, in the
    order of the input: the task at an index has the id of the element at
    that index (or the identifier generated for it) and its status (or
    "Todo"). *)
Theorem normalizeTasks_keeps_order :
  forall (now : Z) (uuid : nat -> string) (l : list JsVal) (out : list Task),
    normalizeTasks now uuid (JArr l) = Ok out ->
    List.length out = List.length l /\
    forall k x, nth_error out k = Some x ->
      exists t, nth_error l k = Some t /\
                id x = coalesce (prop t "id") (JStr (uuid k)) /\
                status x = or_else (prop t "status") (JStr "Todo").
Proof.
  intros now uuid l out H.
  destruct (normalizeTasks_ok now uuid l out H) as [Hlen Hnth].
  split; [exact Hlen|]. intros k x Hk.
  destruct (Hnth k x Hk) as [t [Ht Hone]]. exists t. split; [exact Ht|].
  apply normalizeOne_ok in Hone. destruct Hone as [_ [t0 [_ ->]]].
  split; reflexivity.
Qed.

(** X19. The dates the normalizer makes up: a record without [createdAt] at
    index [k] is dated [k + 1] days before now; a "Done" record without
    [completedAt] is completed one day after its creation; a record that is
    neither keeps [completedAt] absent. *)
Theorem normalizeTasks_backfills_dates :
  forall (now : Z) (uuid : nat -> string) (l : list JsVal) (out : list Task)
         (k : nat) (t : JsVal) (x : Task),
    normalizeTasks now uuid (JArr l) = Ok out ->
    nth_error l k = Some t ->
    nth_error out k = Some x ->
    (truthy (prop t "createdAt") = false ->
     createdAt x
     = isoString (now - (Z.of_nat k + 1) * 24 * 3600 * 1000)) /\
    (truthy (prop t "completedAt") = false ->
     (strictEqStr (prop t "status") "Done" = true ->
      exists t0, createdOf now k t = Some t0 /\
                 createdAt x = isoString t0 /\
                 completedAt x = JStr (isoString (t0 + 24 * 3600 * 1000))) /\
     (strictEqStr (prop t "status") "Done" = false ->
      completedAt x = JUndef)).
Proof.
  intros now uuid l out k t x H Ht Hx.
  destruct (normalizeTasks_ok now uuid l out H) as [_ Hnth].
  destruct (Hnth k x Hx) as [t' [Ht' Hone]].
  rewrite Ht in Ht'. inversion Ht'; subst t'.
  apply normalizeOne_ok in Hone. destruct Hone as [_ [t0 [Hc ->]]].
  cbn [createdAt completedAt]. split.
  - intros Hf. unfold createdOf in Hc. rewrite Hf in Hc.
    apply timeClipZ_some in Hc. rewrite Hc. reflexivity.
  - intros Hf. rewrite Hf. split; intros Hs; rewrite Hs; [|reflexivity].
    exists t0. repeat split. exact Hc.
Qed.

(** X20. Every task that the normalizer returns is complete: its id is set, its
    title, priority and status are truthy, its notes are there, its revenue
    is finite, its [timeTaken] is positive, and a task that is "Done" has a
    [completedAt]. *)
Theorem normalizeTasks_output_is_complete :
  forall (now : Z) (uuid : nat -> string) (l : list JsVal) (out : list Task),
    normalizeTasks now uuid (JArr l) = Ok out ->
    forall x, In x out ->
      nullish (id x) = false /\
      truthy (title x) = true /\
      truthy (priority x) = true /\
      truthy (status x) = true /\
      present (notes x) = true /\
      isFinite (revenue x) = true /\
      gt (timeTaken x) zero = true /\
      (isDone x = true -> present (completedAt x) = true).
Proof.
  intros now uuid l out H x Hx. apply In_nth_error in Hx.
  destruct Hx as [k Hk].
  destruct (normalizeTasks_ok now uuid l out H) as [_ Hn].
  destruct (Hn k x Hk) as [t [_ Ht]].
  apply normalizeOne_ok in Ht. destruct Ht as [_ [t0 [_ ->]]].
  unfold isDone.
  cbn [id title priority status notes revenue timeTaken completedAt].
  assert (Hor : forall a s, s <> "" -> truthy (or_else a (JStr s)) = true).
  { intros a s Hs. unfold or_else. destruct (truthy a) eqn:E; [exact E|].
    simpl. apply String.eqb_neq in Hs. rewrite Hs. reflexivity. }
  repeat split.
  - unfold coalesce. destruct (nullish (prop t "id")) eqn:E;
      [reflexivity|exact E].
  - apply Hor. discriminate.
  - apply Hor. discriminate.
  - apply Hor. discriminate.
  - unfold or_else. destruct (truthy (prop t "notes")) eqn:E;
      [apply truthy_present, E|reflexivity].
  - destruct (isFinite (ToNumber (prop t "revenue"))) eqn:E;
      [exact E|reflexivity].
  - apply coerce_positive.
  - rewrite or_else_todo_done. intros Hd. rewrite Hd.
    destruct (truthy (prop t "completedAt")) eqn:E;
      [apply truthy_present, E|reflexivity].
Qed.

(** X21. The normalizer returns on every array whose elements are neither
    [null] nor [undefined] and carry no [createdAt], when the current time
    is a valid time value and the array is short enough for the dates made
    up to be valid. *)
Theorem normalizeTasks_returns_without_createdAt :
  forall (now : Z) (uuid : nat -> string) (l : list JsVal),
    0 <= now <= maxTime ->
    Z.of_nat (List.length l) * (24 * 3600 * 1000) <= maxTime ->
    (forall t, In t l ->
       nullish t = false /\ truthy (prop t "createdAt") = false) ->
    exists out,
      normalizeTasks now uuid (JArr l) = Ok out /\
      List.length out = List.length l.
Proof.
  intros now uuid l Hnow Hlen Hl.
  destruct (normalizeTasks_succeeds now uuid l) as [out Hout].
  - intros k t Hk.
    assert (Hlt : (k < List.length l)%nat)
      by (apply nth_error_Some; congruence).
    destruct (Hl t (nth_error_In _ _ Hk)) as [Hn Hc].
    split; [exact Hn|].
    exists (now - (Z.of_nat k + 1) * 24 * 3600 * 1000).
    unfold maxTime in *. split.
    + unfold createdOf, timeClipZ. rewrite Hc.
      destruct (Z.abs (now - (Z.of_nat k + 1) * 24 * 3600 * 1000)
                >? maxTime) eqn:E; [|reflexivity].
      unfold maxTime in E. apply Z.gtb_lt in E. lia.
    + intros _ _. lia.
  - exists out. split; [exact Hout|].
    apply (normalizeTasks_ok now uuid l out Hout).
Qed.

(** ** Worked examples of the further properties *)

Lemma buffered_task_has_token_witness :
  exists tok,
    lastDeletedToken
      (run [OpAdd "t-9" "2024-05-01T10:00:00.000Z" nanTask;
            OpDelete "tok-1" "t-9"] initialState)
    = Some tok.
Proof.
  apply (buffered_task_has_token
           [OpAdd "t-9" "2024-05-01T10:00:00.000Z" nanTask;
            OpDelete "tok-1" "t-9"]
           (createTask "t-9" "2024-05-01T10:00:00.000Z" nanTask)).
  reflexivity.
Defined.

Lemma updateTask_missing_id_is_noop_witness :
  updateTask "2024-05-02T10:00:00.000Z" "t-9" donePatch
    (stateOf [taskA; taskB])
  = stateOf [taskA; taskB].
Proof.
  apply (updateTask_missing_id_is_noop (stateOf [taskA; taskB])
           "2024-05-02T10:00:00.000Z" "t-9" donePatch).
  intros t [<-|[<-|[]]]; reflexivity.
Defined.

Lemma updateTask_idempotent_witness :
  updateTask "2024-05-03T10:00:00.000Z" "t-1" donePatch
    (updateTask "2024-05-02T10:00:00.000Z" "t-1" donePatch
       (stateOf [taskA; taskB]))
  = updateTask "2024-05-02T10:00:00.000Z" "t-1" donePatch
      (stateOf [taskA; taskB]).
Proof.
  apply (updateTask_idempotent (stateOf [taskA; taskB])
           "2024-05-02T10:00:00.000Z" "2024-05-03T10:00:00.000Z" "t-1"
           donePatch).
  reflexivity.
Defined.

Lemma timeTaken_stays_positive_witness :
  gt (timeTaken numberOpsResult) zero = true.
Proof.
  apply (timeTaken_stays_positive numberOps).
  - reflexivity.
  - simpl. left. reflexivity.
Defined.

(* ================================================================= *)
(** * Calls and renders *)

Lemma callFrom_own (op : Op) (st : State) : callFrom st op st = step op st.
Proof. destruct op; reflexivity. Qed.

Lemma play_app (l1 l2 : list Action) (h : Hook) :
  play (l1 ++ l2) h = play l2 (play l1 h).
Proof. apply fold_left_app. Qed.

(** [run] is [play] with a render after every call. *)
Lemma play_separately (ops : list Op) :
  forall st, play (separately ops) (mounted st) = mounted (run ops st).
Proof.
  induction ops as [|op ops IH]; intros st; [reflexivity|].
  unfold play, run in *. simpl. rewrite callFrom_own. apply IH.
Qed.

Ltac play_out :=
  unfold play, mounted; cbn [fold_left act rendered pending callFrom];
  repeat match goal with
    | |- context [undoDeleteFrom ?x ?t ?x] =>
        change (undoDeleteFrom x t x) with (undoDelete t x)
    | |- context [clearLastDeletedFrom ?x ?t ?x] =>
        change (clearLastDeletedFrom x t x) with (clearLastDeleted t x)
    end.




(** The condition on the tokens is needed: two deletes that drew the same
    token, and the undo restores the task of the second. *)
Example undo_with_repeated_token_restores :
  tasks (pending
           (play [Call (OpDelete "tok-1" "t-1"); Render;
                  Call (OpDelete "tok-1" "t-2"); Render;
                  Call (OpUndo (Some "tok-1"))]
              (mounted (stateOf [taskA; taskB; taskC]))))
  = [taskC; taskB].
Proof. reflexivity. Qed.

(** ** Delete, undo and clear in separate events *)

(** X1. With a render after each call: after [deleteTask], a
    [clearLastDeleted] without a token or with the token of that delete
    empties the buffer, and a following [undoDelete] with any token changes
    nothing; no task with the deleted id is in the list. *)
Theorem clear_then_undo_is_noop :
  forall (st : State) (i tok : string) (token token' : option string),
    token = None \/ token = Some tok ->
    play [Call (OpDelete tok i); Render; Call (OpClear token); Render;
          Call (OpUndo token')] (mounted st)
    = play [Call (OpDelete tok i); Render; Call (OpClear token); Render]
        (mounted st) /\
    lastDeleted
      (pending (play [Call (OpDelete tok i); Render; Call (OpClear token);
                      Render] (mounted st))) = None /\
    forall t,
      In t (tasks (pending
                     (play [Call (OpDelete tok i); Render;
                            Call (OpClear token); Render;
                            Call (OpUndo token')] (mounted st)))) ->
      hasId i t = false.
Proof.
  intros st i tok token token' Htok.
  destruct (clear_then_undo_steps st i tok token token' Htok)
    as [H1 [H2 H3]].
  play_out. split; [rewrite H1; reflexivity|]. split; assumption.
Qed.

Lemma clear_then_undo_is_noop_witness :
  play [Call (OpDelete "tok-1" "t-1"); Render;
        Call (OpClear (Some "tok-1")); Render;
        Call (OpUndo (Some "tok-1"))] (mounted (stateOf [taskA; taskB]))
  = play [Call (OpDelete "tok-1" "t-1"); Render;
          Call (OpClear (Some "tok-1")); Render]
      (mounted (stateOf [taskA; taskB])) /\
  lastDeleted
    (pending (play [Call (OpDelete "tok-1" "t-1"); Render;
                    Call (OpClear (Some "tok-1")); Render]
                (mounted (stateOf [taskA; taskB])))) = None /\
  forall t,
    In t (tasks (pending
                   (play [Call (OpDelete "tok-1" "t-1"); Render;
                          Call (OpClear (Some "tok-1")); Render;
                          Call (OpUndo (Some "tok-1"))]
                      (mounted (stateOf [taskA; taskB]))))) ->
    hasId "t-1" t = false.
Proof.
  apply (clear_then_undo_is_noop (stateOf [taskA; taskB]) "t-1" "tok-1"
           (Some "tok-1") (Some "tok-1")).
  right. reflexivity.
Defined.

(** X2. With a render after each call, and a first token that is non-empty
    and differs from the second: after two deletes, a [clearLastDeleted]
    with the token of the first changes nothing, and [undoDelete] with the
    token of the second still appends the task of the second delete. *)
Theorem stale_clear_keeps_buffer :
  forall (st : State) (ia ib tokA tokB : string) (b : Task),
    tokA <> "" -> tokA <> tokB ->
    find (hasId ib) (tasks (deleteTask tokA ia st)) = Some b ->
    play [Call (OpDelete tokA ia); Render; Call (OpDelete tokB ib); Render;
          Call (OpClear (Some tokA)); Render] (mounted st)
    = play [Call (OpDelete tokA ia); Render; Call (OpDelete tokB ib); Render]
        (mounted st) /\
    tasks (pending
             (play [Call (OpDelete tokA ia); Render;
                    Call (OpDelete tokB ib); Render;
                    Call (OpClear (Some tokA)); Render;
                    Call (OpUndo (Some tokB))] (mounted st)))
    = tasks (pending
               (play [Call (OpDelete tokA ia); Render;
                      Call (OpDelete tokB ib); Render] (mounted st)))
      ++ [b].
Proof.
  intros st ia ib tokA tokB b Hne Hdiff Hb.
  destruct (stale_clear_steps st ia ib tokA tokB b Hne Hdiff Hb) as [H1 H2].
  play_out. rewrite H1 in *. play_out. split; [reflexivity|exact H2].
Qed.

Lemma stale_clear_keeps_buffer_witness :
  play [Call (OpDelete "tok-1" "t-1"); Render;
        Call (OpDelete "tok-2" "t-2"); Render;
        Call (OpClear (Some "tok-1")); Render]
    (mounted (stateOf [taskA; taskB; taskC]))
  = play [Call (OpDelete "tok-1" "t-1"); Render;
          Call (OpDelete "tok-2" "t-2"); Render]
      (mounted (stateOf [taskA; taskB; taskC])) /\
  tasks (pending
           (play [Call (OpDelete "tok-1" "t-1"); Render;
                  Call (OpDelete "tok-2" "t-2"); Render;
                  Call (OpClear (Some "tok-1")); Render;
                  Call (OpUndo (Some "tok-2"))]
              (mounted (stateOf [taskA; taskB; taskC]))))
  = tasks (pending
             (play [Call (OpDelete "tok-1" "t-1"); Render;
                    Call (OpDelete "tok-2" "t-2"); Render]
                (mounted (stateOf [taskA; taskB; taskC]))))
    ++ [taskB].
Proof.
  apply (stale_clear_keeps_buffer (stateOf [taskA; taskB; taskC])
           "t-1" "t-2" "tok-1" "tok-2" taskB).
  - discriminate.
  - discriminate.
  - reflexivity.
Defined.

(** X3. When exactly one task has the id, [deleteTask], a render, and
    [undoDelete] (without a token or with the token of the delete) move
    that task to the end of the list: the list has the same tasks as
    before, and the buffer is empty again. *)
Theorem delete_undo_moves_to_end :
  forall (st : State) (before after : list Task) (t : Task)
         (i tok : string) (token : option string),
    tasks st = before ++ t :: after ->
    (forall y, In y before -> hasId i y = false) ->
    (forall y, In y after -> hasId i y = false) ->
    hasId i t = true ->
    token = None \/ token = Some tok ->
    tasks (pending (play [Call (OpDelete tok i); Render; Call (OpUndo token)]
                      (mounted st)))
    = before ++ after ++ [t] /\
    Permutation
      (tasks (pending (play [Call (OpDelete tok i); Render;
                             Call (OpUndo token)] (mounted st))))
      (tasks st) /\
    lastDeleted
      (pending (play [Call (OpDelete tok i); Render; Call (OpUndo token)]
                  (mounted st))) = None /\
    lastDeletedToken
      (pending (play [Call (OpDelete tok i); Render; Call (OpUndo token)]
                  (mounted st))) = None.
Proof.
  intros st before after t i tok token Hl Hb Ha Ht Htok. play_out.
  apply (delete_undo_unique_steps st before after t i tok token);
    assumption.
Qed.

Lemma delete_undo_moves_to_end_witness :
  tasks (pending (play [Call (OpDelete "tok-1" "t-2"); Render;
                        Call (OpUndo None)]
                    (mounted (stateOf [taskA; taskB; taskC]))))
  = [taskA] ++ [taskC] ++ [taskB] /\
  Permutation
    (tasks (pending (play [Call (OpDelete "tok-1" "t-2"); Render;
                           Call (OpUndo None)]
                       (mounted (stateOf [taskA; taskB; taskC])))))
    (tasks (stateOf [taskA; taskB; taskC])) /\
  lastDeleted
    (pending (play [Call (OpDelete "tok-1" "t-2"); Render;
                    Call (OpUndo None)]
                (mounted (stateOf [taskA; taskB; taskC])))) = None /\
  lastDeletedToken
    (pending (play [Call (OpDelete "tok-1" "t-2"); Render;
                    Call (OpUndo None)]
                (mounted (stateOf [taskA; taskB; taskC])))) = None.
Proof.
  apply (delete_undo_moves_to_end (stateOf [taskA; taskB; taskC])
           [taskA] [taskC] taskB "t-2" "tok-1" None).
  - reflexivity.
  - intros y [<-|[]]. reflexivity.
  - intros y [<-|[]]. reflexivity.
  - reflexivity.
  - left. reflexivity.
Defined.

(** X4. When several tasks share the id, [deleteTask], a render, and
    [undoDelete ()] bring back only the first of them: the others are
    lost. *)
Theorem delete_undo_drops_duplicates :
  forall (st : State) (i tok : string) (d : Task),
    find (hasId i) (tasks st) = Some d ->
    tasks (pending (play [Call (OpDelete tok i); Render; Call (OpUndo None)]
                      (mounted st)))
    = filter (fun t => negb (hasId i t)) (tasks st) ++ [d] /\
    (List.length
       (tasks (pending (play [Call (OpDelete tok i); Render;
                              Call (OpUndo None)] (mounted st))))
     + List.length (filter (hasId i) (tasks st)))%nat
    = S (List.length (tasks st)).
Proof.
  intros st i tok d Hd. play_out.
  apply (delete_undo_duplicates_steps st i tok d Hd).
Qed.

Lemma delete_undo_drops_duplicates_witness :
  tasks (pending (play [Call (OpDelete "tok-1" "t-1"); Render;
                        Call (OpUndo None)] (mounted duplicateState)))
  = filter (fun t => negb (hasId "t-1" t)) (tasks duplicateState) ++ [taskA]
  /\
  (List.length
     (tasks (pending (play [Call (OpDelete "tok-1" "t-1"); Render;
                            Call (OpUndo None)] (mounted duplicateState))))
   + List.length (filter (hasId "t-1") (tasks duplicateState)))%nat
  = S (List.length (tasks duplicateState)).
Proof.
  apply (delete_undo_drops_duplicates duplicateState "t-1" "tok-1" taskA).
  reflexivity.
Defined.

(** X5. Deleting the same id twice makes the deletion permanent: after the
    second call and a render the list is as the first call left it and the
    buffer is empty, so that an [undoDelete] with any token changes
    nothing. *)
Theorem double_delete_is_permanent :
  forall (st : State) (i tok1 tok2 : string) (token : option string),
    tasks (pending (play [Call (OpDelete tok1 i); Render;
                          Call (OpDelete tok2 i); Render] (mounted st)))
    = filter (fun t => negb (hasId i t)) (tasks st) /\
    lastDeleted
      (pending (play [Call (OpDelete tok1 i); Render;
                      Call (OpDelete tok2 i); Render] (mounted st))) = None /\
    play [Call (OpDelete tok1 i); Render; Call (OpDelete tok2 i); Render;
          Call (OpUndo token)] (mounted st)
    = play [Call (OpDelete tok1 i); Render; Call (OpDelete tok2 i); Render]
        (mounted st).
Proof.
  intros st i tok1 tok2 token.
  destruct (double_delete_steps st i tok1 tok2 token) as [H1 [H2 H3]].
  play_out. split; [exact H1|]. split; [exact H2|].
  rewrite H3. reflexivity.
Qed.

(** X6. Only the most recent delete can be undone: once another
    [deleteTask] has followed the delete of an id, each call being followed
    by a render, no sequence of [undoDelete] and [clearLastDeleted] calls,
    each followed by a render, brings a task with that id back, whatever
    the tokens. *)
Theorem earlier_delete_is_lost :
  forall (st : State) (ia ib tokA tokB : string) (ops : list Op),
    forallb onlyUndoClear ops = true ->
    forall t,
      In t (tasks (pending
                     (play (separately
                              (OpDelete tokA ia :: OpDelete tokB ib :: ops))
                        (mounted st)))) ->
      hasId ia t = false.
Proof.
  intros st ia ib tokA tokB ops Hops t. rewrite play_separately.
  apply (earlier_delete_steps st ia ib tokA tokB ops Hops t).
Qed.

Lemma earlier_delete_is_lost_witness :
  hasId "t-1" taskC = false.
Proof.
  apply (earlier_delete_is_lost (stateOf [taskA; taskB; taskC])
           "t-1" "t-2" "tok-1" "tok-2"
           [OpUndo (Some "tok-1"); OpUndo None; OpClear None; OpUndo None]).
  - reflexivity.
  - simpl. left. reflexivity.
Defined.

(** X8. With a render after each call: a task created without an id gets
    the generated one; when no task had it, deleting it again gives back
    the list as it was, with the new task in the buffer, and [undoDelete]
    puts it back at the end. *)
Theorem add_then_delete_round_trip :
  forall (st : State) (uuid nowIso tok : string) (task : NewTask),
    nullish (nt_id task) = true ->
    (forall t, In t (tasks st) -> hasId uuid t = false) ->
    tasks (pending (play [Call (OpAdd uuid nowIso task); Render;
                          Call (OpDelete tok uuid); Render] (mounted st)))
    = tasks st /\
    lastDeleted
      (pending (play [Call (OpAdd uuid nowIso task); Render;
                      Call (OpDelete tok uuid); Render] (mounted st)))
    = Some (createTask uuid nowIso task) /\
    tasks (pending (play [Call (OpAdd uuid nowIso task); Render;
                          Call (OpDelete tok uuid); Render;
                          Call (OpUndo None)] (mounted st)))
    = tasks st ++ [createTask uuid nowIso task].
Proof.
  intros st uuid nowIso tok task Hn Hfresh.
  destruct (add_delete_steps st uuid nowIso tok task Hn Hfresh)
    as [H1 [H2 H3]].
  play_out. split; [exact H1|]. split; [exact H2|]. exact H3.
Qed.

Lemma add_then_delete_round_trip_witness :
  tasks (pending (play [Call (OpAdd "u-1" "2024-05-01T10:00:00.000Z" nanTask);
                        Render; Call (OpDelete "tok-1" "u-1"); Render]
                    (mounted (stateOf [taskA]))))
  = tasks (stateOf [taskA]) /\
  lastDeleted
    (pending (play [Call (OpAdd "u-1" "2024-05-01T10:00:00.000Z" nanTask);
                    Render; Call (OpDelete "tok-1" "u-1"); Render]
                (mounted (stateOf [taskA]))))
  = Some (createTask "u-1" "2024-05-01T10:00:00.000Z" nanTask) /\
  tasks (pending (play [Call (OpAdd "u-1" "2024-05-01T10:00:00.000Z" nanTask);
                        Render; Call (OpDelete "tok-1" "u-1"); Render;
                        Call (OpUndo None)] (mounted (stateOf [taskA]))))
  = tasks (stateOf [taskA])
    ++ [createTask "u-1" "2024-05-01T10:00:00.000Z" nanTask].
Proof.
  apply (add_then_delete_round_trip (stateOf [taskA]) "u-1"
           "2024-05-01T10:00:00.000Z" "tok-1" nanTask).
  - reflexivity.
  - intros t [<-|[]]. reflexivity.
Defined.

(** ** Calls that share a render *)

(** X12. An [undoDelete] made from the same render as a preceding
    [deleteTask] does not see what that delete buffered. With an empty
    buffer at the render it restores nothing; with a task buffered at the
    render, and no token or the token of the render, it appends that
    earlier task to the list the delete has filtered. *)
Theorem undo_reads_the_rendered_buffer :
  forall (st : State) (i tok : string) (token : option string),
    (lastDeleted st = None ->
     tasks (pending (play [Call (OpDelete tok i); Call (OpUndo token)]
                       (mounted st)))
     = filter (fun t => negb (hasId i t)) (tasks st)) /\
    (forall d,
        lastDeleted st = Some d ->
        token = None \/ token = lastDeletedToken st ->
        tasks (pending (play [Call (OpDelete tok i); Call (OpUndo token)]
                          (mounted st)))
        = filter (fun t => negb (hasId i t)) (tasks st) ++ [d]).
Proof.
  intros st i tok token. unfold play, mounted.
  cbn [fold_left act rendered pending callFrom]. unfold undoDeleteFrom.
  split.
  - intros Hd. rewrite Hd. reflexivity.
  - intros d Hd Htok. rewrite Hd.
    assert (Hm : tokenMismatch token (lastDeletedToken st) = false).
    { destruct Htok as [->| <-]; [reflexivity|].
      destruct token as [t0|]; [|reflexivity]. simpl.
      rewrite String.eqb_refl. simpl. apply andb_false_r. }
    rewrite Hm. reflexivity.
Qed.

End Host.

(** ** Worked examples on a concrete host *)

Lemma normalizeTasks_throws_on_invalid_createdAt_witness :
  isOk (normalizeTasks constStringToNumber constToPrimitiveString
          constDateParse constIsoString 1700000000000 (fun _ => "uuid-0")
          (JArr ([JObj [("id", JStr "t-6")]] ++ badDateRecord :: [])))
  = false.
Proof.
  apply (normalizeTasks_throws_on_invalid_createdAt
           constStringToNumber constToPrimitiveString constDateParse
           constIsoString 1700000000000 (fun _ => "uuid-0")
           [JObj [("id", JStr "t-6")]] [] badDateRecord);
    reflexivity.
Defined.

Lemma addTask_stores_NaN_timeTaken_witness :
  (exists t,
      tasks (addTask "uuid-1" "2024-05-01T10:00:00.000Z" nanTask
               (stateOf [taskA]))
      = tasks (stateOf [taskA]) ++ [t] /\
      isNaN (timeTaken t) = true /\ gt (timeTaken t) zero = false) /\
  (forall (i : string) (patch : Patch) (t : Task),
      hasId i t = true ->
      p_timeTaken patch = Some (nt_timeTaken nanTask) ->
      gt (timeTaken (updateOne "2024-05-01T10:00:00.000Z" i patch t)) zero
      = false).
Proof.
  apply (addTask_stores_NaN_timeTaken "uuid-1" "2024-05-01T10:00:00.000Z"
           nanTask (stateOf [taskA])).
  reflexivity.
Defined.

Lemma load_falls_back_on_empty_witness :
  let st' :=
    onSettled true
      (fetchTasks constStringToNumber constToPrimitiveString constDateParse
         constIsoString constSeed 1700000000000 (fun _ => "uuid-0")
         (Response true 200 (Ok (JArr []))))
      initialState in
  ([] = @nil Task -> tasks st' = constSeed 50) /\
  ([] <> @nil Task -> tasks st' = []) /\
  tasks st' <> [] /\ loading st' = false.
Proof.
  apply (load_falls_back_on_empty
           constStringToNumber constToPrimitiveString constDateParse
           constIsoString constSeed 1700000000000 (fun _ => "uuid-0") 200
           (JArr []) [] initialState);
    reflexivity.
Defined.

(** The record with [createdAt: 1e16] alone: the RangeError of
    [toISOString]. *)
Example normalizeTasks_badDateRecord :
  normalizeTasks constStringToNumber constToPrimitiveString constDateParse
    constIsoString 1700000000000 (fun _ => "uuid-0") (JArr [badDateRecord])
  = Throw (RangeError "Invalid time value").
Proof. reflexivity. Qed.

(** A record without [createdAt] and with status "Done" is normalized: the
    defaults of the normalizer on a concrete input. *)
Example normalizeTasks_defaults :
  normalizeTasks constStringToNumber constToPrimitiveString constDateParse
    constIsoString 1700000000000 (fun _ => "uuid-0")
    (JArr [JObj [("status", JStr "Done"); ("timeTaken", JNum zero)]])
  = Ok [mkTask (JStr "uuid-0") (JStr "Untitled") zero one (JStr "Low")
               (JStr "Done") (JStr "") "2024-01-01T00:00:00.000Z"
               (JStr "2024-01-01T00:00:00.000Z")].
Proof. reflexivity. Qed.

(** A raw record that is "Todo" and carries a [completedAt] keeps it: a load
    can deliver a task with [completedAt] present that never was "Done". *)
Example normalizeTasks_keeps_completedAt_of_todo :
  normalizeTasks constStringToNumber constToPrimitiveString constDateParse
    constIsoString 1700000000000 (fun _ => "uuid-0")
    (JArr [JObj [("id", JStr "t-4"); ("status", JStr "Todo");
                 ("completedAt", JStr "2024-02-01T00:00:00.000Z")]])
  = Ok [mkTask (JStr "t-4") (JStr "Untitled") zero one (JStr "Low")
               (JStr "Todo") (JStr "") "2024-01-01T00:00:00.000Z"
               (JStr "2024-02-01T00:00:00.000Z")].
Proof. reflexivity. Qed.

(** ** Worked examples of the further properties on the concrete host *)

Lemma metrics_total_time_NaN_witness :
  totalTimeTaken
    (metrics constFormula constFormula constFormula constFormula constGrade
       [taskA; createTask "uuid-1" "2024-05-01T10:00:00.000Z" nanTask])
  = NaN.
Proof.
  apply (metrics_total_time_NaN constFormula constFormula constFormula
           constFormula constGrade
           [taskA; createTask "uuid-1" "2024-05-01T10:00:00.000Z" nanTask]
           (createTask "uuid-1" "2024-05-01T10:00:00.000Z" nanTask)).
  - simpl. right. left. reflexivity.
  - reflexivity.
Defined.

Lemma load_of_non_array_falls_back_witness :
  fetchTasks constStringToNumber constToPrimitiveString constDateParse
    constIsoString constSeed 1700000000000 (fun _ => "uuid-0")
    (Response true 200 (Ok (JObj [("tasks", JArr [JObj []])])))
  = Ok (constSeed 50).
Proof.
  apply (load_of_non_array_falls_back constStringToNumber
           constToPrimitiveString constDateParse constIsoString constSeed
           1700000000000 (fun _ => "uuid-0") 200
           (JObj [("tasks", JArr [JObj []])])).
  intros a l. discriminate.
Defined.

Lemma null_element_fails_the_load_witness :
  isOk (fetchTasks constStringToNumber constToPrimitiveString constDateParse
          constIsoString constSeed 1700000000000 (fun _ => "uuid-0")
          (Response true 200 (Ok (JArr (rawPair ++ JNull :: [])))))
  = false /\
  tasks (onSettled true
           (fetchTasks constStringToNumber constToPrimitiveString
              constDateParse constIsoString constSeed 1700000000000
              (fun _ => "uuid-0")
              (Response true 200 (Ok (JArr (rawPair ++ JNull :: [])))))
           initialState) = tasks initialState /\
  loading (onSettled true
             (fetchTasks constStringToNumber constToPrimitiveString
                constDateParse constIsoString constSeed 1700000000000
                (fun _ => "uuid-0")
                (Response true 200 (Ok (JArr (rawPair ++ JNull :: [])))))
             initialState) = false /\
  error (onSettled true
           (fetchTasks constStringToNumber constToPrimitiveString
              constDateParse constIsoString constSeed 1700000000000
              (fun _ => "uuid-0")
              (Response true 200 (Ok (JArr (rawPair ++ JNull :: [])))))
           initialState) <> None.
Proof.
  apply (null_element_fails_the_load constStringToNumber
           constToPrimitiveString constDateParse constIsoString constSeed
           1700000000000 (fun _ => "uuid-0") 200 rawPair [] JNull
           initialState).
  reflexivity.
Defined.

Lemma normalizeTasks_keeps_order_witness :
  List.length rawPairNormalized = List.length rawPair /\
  forall k x, nth_error rawPairNormalized k = Some x ->
    exists t, nth_error rawPair k = Some t /\
              id x = coalesce (prop t "id") (JStr "uuid-0") /\
              status x = or_else (prop t "status") (JStr "Todo").
Proof.
  apply (normalizeTasks_keeps_order constStringToNumber
           constToPrimitiveString constDateParse constIsoString
           1700000000000 (fun _ => "uuid-0") rawPair rawPairNormalized).
  reflexivity.
Defined.

Lemma normalizeTasks_backfills_dates_witness :
  (truthy (prop (JObj [("id", JStr "r-1"); ("status", JStr "Done")])
             "createdAt") = false ->
   "2024-01-01T00:00:00.000Z"
   = constIsoString (1700000000000 - (Z.of_nat 0 + 1) * 24 * 3600 * 1000)) /\
  (truthy (prop (JObj [("id", JStr "r-1"); ("status", JStr "Done")])
             "completedAt") = false ->
   (strictEqStr (prop (JObj [("id", JStr "r-1"); ("status", JStr "Done")])
                   "status") "Done" = true ->
    exists t0,
      createdOf constStringToNumber constToPrimitiveString constDateParse
        1700000000000 0
        (JObj [("id", JStr "r-1"); ("status", JStr "Done")]) = Some t0 /\
      "2024-01-01T00:00:00.000Z" = constIsoString t0 /\
      JStr "2024-01-01T00:00:00.000Z"
      = JStr (constIsoString (t0 + 24 * 3600 * 1000))) /\
   (strictEqStr (prop (JObj [("id", JStr "r-1"); ("status", JStr "Done")])
                   "status") "Done" = false ->
    JStr "2024-01-01T00:00:00.000Z" = JUndef)).
Proof.
  apply (normalizeTasks_backfills_dates constStringToNumber
           constToPrimitiveString constDateParse constIsoString
           1700000000000 (fun _ => "uuid-0") rawPair rawPairNormalized 0
           (JObj [("id", JStr "r-1"); ("status", JStr "Done")])
           (mkTask (JStr "r-1") (JStr "Untitled") zero one (JStr "Low")
                   (JStr "Done") (JStr "") "2024-01-01T00:00:00.000Z"
                   (JStr "2024-01-01T00:00:00.000Z")));
    reflexivity.
Defined.

Lemma normalizeTasks_output_is_complete_witness :
  nullish (id rawDoneNormalized) = false /\
  truthy (title rawDoneNormalized) = true /\
  truthy (priority rawDoneNormalized) = true /\
  truthy (status rawDoneNormalized) = true /\
  present (notes rawDoneNormalized) = true /\
  isFinite (revenue rawDoneNormalized) = true /\
  gt (timeTaken rawDoneNormalized) zero = true /\
  (isDone rawDoneNormalized = true ->
   present (completedAt rawDoneNormalized) = true).
Proof.
  apply (normalizeTasks_output_is_complete constStringToNumber
           constToPrimitiveString constDateParse constIsoString
           1700000000000 (fun _ => "uuid-0") rawPair rawPairNormalized).
  - reflexivity.
  - simpl. left. reflexivity.
Defined.

Lemma normalizeTasks_returns_without_createdAt_witness :
  exists out,
    normalizeTasks constStringToNumber constToPrimitiveString constDateParse
      constIsoString 1700000000000 (fun _ => "uuid-0") (JArr rawPair)
    = Ok out /\
    List.length out = List.length rawPair.
Proof.
  apply (normalizeTasks_returns_without_createdAt constStringToNumber
           constToPrimitiveString constDateParse constIsoString
           1700000000000 (fun _ => "uuid-0") rawPair).
  - unfold maxTime. lia.
  - unfold maxTime. simpl. lia.
  - intros t [<-|[<-|[]]]; split; reflexivity.
Defined.
